(** * Courses-search: a shallow embedding of [update.py]

    The development follows the two stages of the program:
    the scraping layer ([scroll_to_bottom], the card extraction loop of
    [scrape_platform]), the aggregator with its process-wide cache
    ([get_all_courses]) and the semantic matcher ([search_courses]).

    Python values are modelled as follows.
    - [str] is [string]; [lower] and [strip] are the ASCII fragments of
      the Python methods.
    - a [set] of titles is a [gset string].
    - a course [dict] always carries the four keys the program writes, so
      it is a record; a [DataFrame] built from such dicts is the list of
      its rows.
    - [time.time()] is a rational number of seconds ([Qc]).
    - objects whose identity matters (the cached [DataFrame]) live in an
      explicit object table and are referred to by their index.
    - a call that may raise returns [option]; [None] is the raised
      exception, and every [try]/[except] of the source is written out. *)

From Stdlib Require Import Ascii String QArith Qcanon.
From stdpp Require Import base numbers list gmap sets strings pretty sorting.

Local Open Scope string_scope.
Local Open Scope list_scope.
Local Open Scope nat_scope.

(** ** Python string methods *)

(** [c.isspace()] on ASCII: TAB, LF, VT, FF, CR, the four separators
    FS..US and the space. *)
Definition isspace (c : ascii) : bool :=
  let n := nat_of_ascii c in
  (((9 <=? n) && (n <=? 13)) || ((28 <=? n) && (n <=? 32)))%nat.

Fixpoint lstrip (s : string) : string :=
  match s with
  | String c s' => if isspace c then lstrip s' else s
  | EmptyString => EmptyString
  end.

(** [s.strip()]: whitespace removed at both ends. *)
Definition strip (s : string) : string :=
  String.rev (lstrip (String.rev (lstrip s))).

Definition lower_ascii (c : ascii) : ascii :=
  let n := nat_of_ascii c in
  if ((65 <=? n) && (n <=? 90))%nat then ascii_of_nat (n + 32) else c.

(** [s.lower()] *)
Fixpoint lower (s : string) : string :=
  match s with
  | String c s' => String (lower_ascii c) (lower s')
  | EmptyString => EmptyString
  end.

(** [s.startswith(p)] *)
Definition startswith (s p : string) : bool := String.prefix p s.

(** [p in s] for two strings. *)
Fixpoint contains (p s : string) : bool :=
  String.prefix p s ||
  match s with
  | String _ s' => contains p s'
  | EmptyString => false
  end.

(** [" ".join(l)] *)
Fixpoint join_space (l : list string) : string :=
  match l with
  | [] => ""
  | [x] => x
  | x :: l' => x +:+ " " +:+ join_space l'
  end.

(** ** Course records *)

Record CourseRecord := mkCourse {
  title : string;
  image_url : string;
  course_link : string;
  platform : string
}.

Global Instance CourseRecord_eq_dec : EqDecision CourseRecord.
Proof. solve_decision. Defined.

(** A [DataFrame] made by [pd.DataFrame(list_of_dicts)]: its rows. *)
Definition DataFrame := list CourseRecord.

(** ** Aggregator: the title deduplication of [get_all_courses] *)

(** The loop of lines 364-369.  [course] is a dict with four keys, hence
    truthy; [course['title']] is truthy when it is not the empty string. *)
Fixpoint dedup_loop (all_courses : list CourseRecord)
    (seen_titles : gset string) (unique_courses : list CourseRecord)
    : list CourseRecord :=
  match all_courses with
  | [] => unique_courses
  | course :: rest =>
      if bool_decide (title course ≠ "" ∧ title course ∉ seen_titles)
      then dedup_loop rest ({[title course]} ∪ seen_titles)
                      (unique_courses ++ [course])
      else dedup_loop rest seen_titles unique_courses
  end.

Definition remove_duplicate_titles (all_courses : list CourseRecord)
    : list CourseRecord :=
  dedup_loop all_courses ∅ [].

(** Position and value of the first record of [l] whose title is [t]. *)
Definition first_with_title (t : string) (l : list CourseRecord)
    : option (nat * CourseRecord) :=
  list_find (λ r, title r = t) l.

(** ** Aggregator: the cache and [get_all_courses] *)

Inductive scraper :=
  | scrape_coursera | scrape_udemy | scrape_analyticsvidhya | scrape_edx
  | scrape_khanacademy | scrape_mitocw | scrape_freecodecamp | scrape_harvard.

Global Instance scraper_eq_dec : EqDecision scraper.
Proof. solve_decision. Defined.

(** The list of line 342, in insertion order. *)
Definition platform_scrapers : list scraper :=
  [scrape_coursera; scrape_udemy; scrape_analyticsvidhya; scrape_edx;
   scrape_khanacademy; scrape_mitocw; scrape_freecodecamp; scrape_harvard].

Definition CACHE_DURATION : Qc := Qc_of_Z 3600.

(** What the outside world does during one call of [get_all_courses]:
    what each platform scraper yields ([None]: the call raised) and
    whether building the new [DataFrame] on line 372, the one step of the
    merge that leaves this module, raises. *)
Record Env := {
  run_scraper : scraper → option (list CourseRecord);
  merge_raises : bool
}.

(** The module globals [cached_courses] and [last_cache_time], together
    with the table of [DataFrame] objects allocated so far; a [DataFrame]
    is named by its index in the table, which is its identity. *)
Record State := mkState {
  objects : list DataFrame;
  cached_courses : option nat;
  last_cache_time : Qc
}.

Definition initial_state : State :=
  {| objects := []; cached_courses := None; last_cache_time := 0%Qc |}.

(** [pd.DataFrame(rows)]: a new object. *)
Definition new_object (rows : DataFrame) (objs : list DataFrame)
    : nat * list DataFrame :=
  (length objs, objs ++ [rows]).

Record Outcome := mkOutcome {
  returned : nat;
  final : State;
  scraper_calls : list scraper
}.

(** Lines 353-361: every scraper is called, whatever the others did. *)
Fixpoint scrape_loop (env : Env) (scrapers : list scraper)
    (all_courses : list CourseRecord) (calls : list scraper)
    : list CourseRecord * list scraper :=
  match scrapers with
  | [] => (all_courses, calls)
  | platform_scraper :: rest =>
      match run_scraper env platform_scraper with
      | Some courses =>
          scrape_loop env rest
            (if bool_decide (courses ≠ []) then all_courses ++ courses
             else all_courses)
            (calls ++ [platform_scraper])
      | None => scrape_loop env rest all_courses (calls ++ [platform_scraper])
      end
  end.

(** Lines 337-383: the [try] block and its handler. *)
Definition rebuild (env : Env) (current_time : Qc) (σ : State) : Outcome :=
  let '(all_courses, calls) := scrape_loop env platform_scrapers [] [] in
  let unique_courses := remove_duplicate_titles all_courses in
  if merge_raises env then
    match cached_courses σ with
    | Some c => {| returned := c; final := σ; scraper_calls := calls |}
    | None =>
        let '(df, objs) := new_object [] (objects σ) in
        {| returned := df;
           final := {| objects := objs;
                       cached_courses := None;
                       last_cache_time := last_cache_time σ |};
           scraper_calls := calls |}
    end
  else
    let '(df, objs) := new_object unique_courses (objects σ) in
    {| returned := df;
       final := {| objects := objs;
                   cached_courses := Some df;
                   last_cache_time := current_time |};
       scraper_calls := calls |}.

Definition get_all_courses (env : Env) (current_time : Qc) (σ : State)
    : Outcome :=
  match cached_courses σ with
  | Some c =>
      if bool_decide (current_time - last_cache_time σ < CACHE_DURATION)%Qc
      then {| returned := c; final := σ; scraper_calls := [] |}
      else rebuild env current_time σ
  | None => rebuild env current_time σ
  end.

(** ** Matcher: [search_courses] *)

(** [list.sort]: a stable sort that only uses [<]. *)
Fixpoint insert_by {A} (lt : A → A → bool) (x : A) (l : list A) : list A :=
  match l with
  | [] => [x]
  | y :: l' => if lt y x then y :: insert_by lt x l' else x :: l
  end.

Definition sort_stable {A} (lt : A → A → bool) (l : list A) : list A :=
  foldr (insert_by lt) [] l.

(** [sorted(l, key=..., reverse=True)]: reverse, sort, reverse, so that
    equal keys keep their order. *)
Definition sorted_reverse {A} (lt : A → A → bool) (l : list A) : list A :=
  reverse (sort_stable lt (reverse l)).

Record RankedResult (Score : Type) := mkResult {
  r_title : string;
  r_image_url : string;
  r_course_link : string;
  r_platform : string;
  r_score : Score
}.
Arguments mkResult {Score}.
Arguments r_title {Score}.
Arguments r_image_url {Score}.
Arguments r_course_link {Score}.
Arguments r_platform {Score}.
Arguments r_score {Score}.

Inductive EncodeCall :=
  | EncodeQuery (query : string)
  | EncodeTitles (course_titles : list string).

Section Matcher.
(** The embedding space, the similarity scores with their [<], and
    [util.pytorch_cos_sim] on two vectors. *)
Context {Emb Score : Type}.
Context (score_lt : Score → Score → bool).
Context (pytorch_cos_sim : Emb → Emb → Score).

(** A loaded [SentenceTransformer]: [encode] on one text, [None] when
    it raises.  The module global [model] is an [option Model]. *)
Definition Model := string → option Emb.

(** [tensor.topk(k).indices] on a vector: [RuntimeError] when [k]
    exceeds its length, else the positions of the [k] largest entries,
    largest first (equal entries by position). *)
Definition topk (k : nat) (similarities : list Score) : option (list nat) :=
  if bool_decide (k ≤ length similarities)%nat then
    Some (take k (fst <$>
      sorted_reverse (λ a b, score_lt (snd a) (snd b))
                     (imap (λ i s, (i, s)) similarities)))
  else None.

(** The loop of lines 407-423.  [df.iloc[idx]] outside the frame raises
    into the handler of line 421, which moves on to the next index. *)
Fixpoint collect_results (df : DataFrame) (similarities : list Score)
    (indices : list nat) (seen_courses : gset string)
    (results : list (RankedResult Score)) : list (RankedResult Score) :=
  match indices with
  | [] => results
  | idx :: rest =>
      match df !! idx, similarities !! idx with
      | Some course, Some s =>
          if bool_decide (title course ∉ seen_courses) then
            let results' :=
              results ++ [mkResult (title course) (image_url course)
                                   (course_link course) (platform course) s] in
            if bool_decide (8 ≤ length results')%nat then results'
            else collect_results df similarities rest
                   ({[title course]} ∪ seen_courses) results'
          else collect_results df similarities rest seen_courses results
      | _, _ => collect_results df similarities rest seen_courses results
      end
  end.

(** [search_courses(query, df)] with the global [model]; the second
    component lists the calls of [model.encode] that were made. *)
Definition search_courses (model : option Model) (query : string)
    (df : DataFrame) : list (RankedResult Score) * list EncodeCall :=
  if bool_decide (df = []) then ([], [])
  else
    match model with
    | None => ([], [])
    | Some m =>
        match m query with
        | None => ([], [EncodeQuery query])
        | Some query_embedding =>
            let course_titles := title <$> df in
            let calls := [EncodeQuery query; EncodeTitles course_titles] in
            match mapM m course_titles with
            | None => ([], calls)
            | Some course_embeddings =>
                let similarities :=
                  pytorch_cos_sim query_embedding <$> course_embeddings in
                match topk 30 similarities with
                | None => ([], calls)
                | Some top_results =>
                    (sorted_reverse
                       (λ a b, score_lt (r_score a) (r_score b))
                       (collect_results df similarities top_results ∅ []),
                     calls)
                end
            end
        end
    end.
End Matcher.

(** A toy embedding for examples: a text is embedded as itself and the
    score of a title is 1 when it contains the lower-cased query, else 0. *)
Definition toy_model : @Model string := λ s, Some s.
Definition toy_cos_sim (q t : string) : Z :=
  if contains (lower q) (lower t) then 1%Z else 0%Z.

Definition intro_python_corpus : DataFrame :=
  [mkCourse "Intro to Python" "" "http://a/1" "X";
   mkCourse "Intro to Python" "" "http://b/2" "Y"].

Definition numbered_course (n : nat) : CourseRecord :=
  mkCourse (if Nat.even n then "Python " +:+ pretty (n / 2) else "Cooking")
           "" ("http://c/" +:+ pretty n) "Z".
Definition big_corpus : DataFrame := numbered_course <$> seq 0 40.

(** ** Page fetcher: [scroll_to_bottom] *)

(** The browser as the function sees it: [driver n] is the page height
    read after [n] scrolls, [None] when a script call of that round
    raises. *)
Definition Driver := nat → option Z.

Definition max_scrolls : nat := 10.

(** The [while] loop of lines 73-83, started after [scrolls] scrolls.
    The result is the number of scrolls made when the function returns,
    [None] when [fuel] rounds were not enough to leave the loop. *)
Fixpoint scroll_loop (fuel : nat) (driver : Driver) (scrolls : nat)
    (last_height : Z) (retry_count : nat) : option nat :=
  if bool_decide (retry_count < max_scrolls)%nat then
    match fuel with
    | O => None
    | S fuel' =>
        match driver (S scrolls) with
        | None => Some (S scrolls)
        | Some new_height =>
            let retry_count' :=
              if bool_decide (new_height = last_height) then S retry_count
              else O in
            if bool_decide (3 ≤ retry_count')%nat then Some (S scrolls)
            else scroll_loop fuel' driver (S scrolls) new_height retry_count'
        end
    end
  else Some scrolls.

Definition scroll_to_bottom (fuel : nat) (driver : Driver) : option nat :=
  match driver O with
  | None => Some O
  | Some last_height => scroll_loop fuel driver O last_height O
  end.

(** A page that grows with each of the first [n] scrolls and then stays,
    and a page that grows with every scroll. *)
Definition grows_until (n : nat) : Driver :=
  λ k, Some (Z.of_nat (k `min` n)).
Definition grows_forever : Driver := λ k, Some (Z.of_nat k).

(** ** Card extractor: the parsed document *)

Record Attrs := mkAttrs {
  class_ : option (list string);
  href : option string;
  src : option string
}.

#[local] Set Warnings "-register-all".

(** A [bs4] parse tree; the [class] attribute is multi-valued. *)
Inductive node :=
  | Tag (name : string) (attrs : Attrs) (contents : list node)
  | NavigableString (s : string).

Definition no_attrs : Attrs := mkAttrs None None None.

(** [node.text] *)
Fixpoint get_text (n : node) : string :=
  match n with
  | Tag _ _ contents => foldr (λ c acc, get_text c +:+ acc) "" contents
  | NavigableString s => s
  end.

(** [n] and what is below it in document order, each node with its chain
    of [.parent]s, nearest first. *)
Fixpoint walk (parents : list node) (n : node) : list (node * list node) :=
  (n, parents) ::
  match n with
  | Tag _ _ contents => flat_map (walk (n :: parents)) contents
  | NavigableString _ => []
  end.

(** [n.descendants] *)
Definition descendants (parents : list node) (n : node)
    : list (node * list node) :=
  match n with
  | Tag _ _ contents => flat_map (walk (n :: parents)) contents
  | NavigableString _ => []
  end.

Definition nodes_in (n : node) : list node := fst <$> descendants [] n.

(** How [bs4] applies a function given as [class_=]: to [None] when the
    attribute is absent (the lambdas of the source answer falsy), else to
    each class and then to the whole attribute value. *)
Definition class_matches (f : string → bool) (a : Attrs) : bool :=
  match class_ a with
  | None => false
  | Some values => existsb f values || f (join_space values)
  end.

(** The lambda of lines 104 and 172. *)
Definition title_like (x : string) : bool :=
  bool_decide (x ≠ "") &&
  (contains "title" (lower x) || contains "heading" (lower x)
   || contains "name" (lower x)).

(** The lambda of line 161. *)
Definition card_like (classes : list string) (x : string) : bool :=
  bool_decide (x ≠ "") && existsb (λ c, contains c (lower x)) classes.

(** The lambda of line 180. *)
Definition looks_like_title (x : string) : bool :=
  bool_decide (x ≠ "") &&
  (10 <? String.length (strip x))%nat && (String.length (strip x) <? 100)%nat.

Definition is_heading (n : node) : bool :=
  match n with
  | Tag name _ _ => bool_decide (name ∈ ["h2"; "h3"; "h4"])
  | NavigableString _ => false
  end.

Definition is_title_heading (n : node) : bool :=
  match n with
  | Tag _ a _ => is_heading n && class_matches title_like a
  | NavigableString _ => false
  end.

Definition is_title_string (n : node) : bool :=
  match n with
  | Tag _ _ _ => false
  | NavigableString s => looks_like_title s
  end.

Definition is_link (n : node) : bool :=
  match n with
  | Tag name a _ => bool_decide (name = "a") && bool_decide (href a ≠ None)
  | NavigableString _ => false
  end.

Definition is_img (n : node) : bool :=
  match n with
  | Tag name _ _ => bool_decide (name = "img")
  | NavigableString _ => false
  end.

(** [n.find(...)]: the first node below [n] that passes the test. *)
Definition find (test : node → bool) (n : node) : option node :=
  List.find test (nodes_in n).

(** Lines 172-180: the three methods in turn.  A [Tag] is always truthy
    and a string kept by method 3 is not empty. *)
Definition find_title_tag (card : node) : option node :=
  match find is_title_heading card with
  | Some title_tag => Some title_tag
  | None =>
      match find is_heading card with
      | Some title_tag => Some title_tag
      | None => find is_title_string card
      end
  end.

(** Line 183 *)
Definition extract_title (card : node) : option string :=
  (λ title_tag, strip (get_text title_tag)) <$> find_title_tag card.

(** The loops of lines 189-192 and 208-211. *)
Fixpoint find_in_parents (test : node → bool) (parents : list node)
    : option node :=
  match parents with
  | [] => None
  | parent :: rest =>
      match find test parent with
      | Some found => Some found
      | None => find_in_parents test rest
      end
  end.

Definition find_here_or_above (test : node → bool) (card : node)
    (parents : list node) : option node :=
  match find test card with
  | Some found => Some found
  | None => find_in_parents test parents
  end.

(** Lines 195-202 *)
Definition resolve_link (platform href : string) : string :=
  if startswith href "http" then href
  else if bool_decide (platform = "Coursera") then
    "https://www.coursera.org" +:+ href
  else if bool_decide (platform = "Udemy") then
    "https://www.udemy.com" +:+ href
  else if bool_decide (platform = "Analytics Vidhya") then
    "https://courses.analyticsvidhya.com" +:+ href
  else href.

Definition attr_href (n : node) : string :=
  match n with
  | Tag _ a _ => default "" (href a)
  | NavigableString _ => ""
  end.

(** Line 213: [img['src'] if img and img.get('src') else ""] *)
Definition image_of (img : option node) : string :=
  match img with
  | Some (Tag _ a _) => default "" (src a)
  | _ => ""
  end.

(** Lines 169-220 for one card. *)
Definition card_course_info (platform : string) (card : node)
    (parents : list node) : option CourseRecord :=
  match extract_title card with
  | None => None
  | Some title =>
      match find_here_or_above is_link card parents with
      | None => None
      | Some link =>
          let course_link := resolve_link platform (attr_href link) in
          let img := find_here_or_above is_img card parents in
          Some {| title := title;
                  image_url := image_of img;
                  course_link := course_link;
                  platform := platform |}
      end
  end.

(** Line 222 *)
Definition accepted (course_info : CourseRecord) : bool :=
  bool_decide (title course_info ≠ "") &&
  bool_decide (course_link course_info ≠ "").

Record Selector := mkSelector { sel_tag : string; sel_classes : list string }.

(** Lines 161-165: [soup.find_all] by class, else by tag alone. *)
Definition find_cards (selector : Selector) (soup : node)
    : list (node * list node) :=
  let by_tag := λ c : node * list node,
    match fst c with
    | Tag name _ _ => bool_decide (name = sel_tag selector)
    | NavigableString _ => false
    end in
  let by_class := λ c : node * list node,
    match fst c with
    | Tag name a _ =>
        bool_decide (name = sel_tag selector)
        && class_matches (card_like (sel_classes selector)) a
    | NavigableString _ => false
    end in
  let cards := List.filter by_class (descendants [] soup) in
  if bool_decide (cards = []) then List.filter by_tag (descendants [] soup)
  else cards.

Definition cards_courses (platform : string)
    (cards : list (node * list node)) : list CourseRecord :=
  List.filter accepted
    (omap (λ c, card_course_info platform (fst c) (snd c)) cards).

(** Lines 158-230: selectors in turn, until one yields a course. *)
Fixpoint selector_loop (platform : string) (soup : node)
    (card_selectors : list Selector) (courses : list CourseRecord)
    : list CourseRecord :=
  match card_selectors with
  | [] => courses
  | selector :: rest =>
      let courses' :=
        courses ++ cards_courses platform (find_cards selector soup) in
      if bool_decide (courses' ≠ []) then courses'
      else selector_loop platform soup rest courses'
  end.

(** [scrape_platform]; [page_source] is [None] when no driver could be
    set up or the listing could not be loaded. *)
Definition scrape_platform (platform : string)
    (card_selectors : list Selector) (page_source : option node)
    : list CourseRecord :=
  match page_source with
  | None => []
  | Some soup => selector_loop platform soup card_selectors []
  end.

(** The platform label and the selectors of each scraper, lines 247-325. *)
Definition scraper_platform (s : scraper) : string :=
  match s with
  | scrape_coursera => "Coursera"
  | scrape_udemy => "Udemy"
  | scrape_analyticsvidhya => "Analytics Vidhya"
  | scrape_edx => "edX"
  | scrape_khanacademy => "Khan Academy"
  | scrape_mitocw => "MIT OpenCourseWare"
  | scrape_freecodecamp => "freeCodeCamp"
  | scrape_harvard => "Harvard Online Learning"
  end.

Definition common_classes : list string :=
  ["course-card"; "course-item"; "course"].

Definition three_selectors (own : string) : list Selector :=
  [mkSelector "div" (common_classes ++ [own]);
   mkSelector "article" common_classes;
   mkSelector "div" [own]].

Definition scraper_selectors (s : scraper) : list Selector :=
  match s with
  | scrape_coursera =>
      [mkSelector "li" (common_classes ++
                        ["ais-InfiniteHits-item"; "cds-ProductCard"]);
       mkSelector "div" (common_classes ++ ["cds-ProductCard"]);
       mkSelector "article" common_classes]
  | scrape_udemy => three_selectors "course-card--container"
  | scrape_analyticsvidhya =>
      [mkSelector "div" (common_classes ++ ["course-card__img-container"]);
       mkSelector "article" common_classes;
       mkSelector "header" ["course-card__img-container"]]
  | scrape_edx => three_selectors "discovery-card"
  | scrape_khanacademy => three_selectors "_1q7xw7"
  | scrape_mitocw => three_selectors "coursePreview"
  | scrape_freecodecamp => three_selectors "block"
  | scrape_harvard => three_selectors "course-card--container"
  end.

(** A platform scraper run on the page its driver delivers. *)
Definition scrape (s : scraper) (page_source : option node)
    : list CourseRecord :=
  scrape_platform (scraper_platform s) (scraper_selectors s) page_source.

(** A listing with one card whose link is relative. *)
Definition sample_card : node :=
  Tag "div" (mkAttrs (Some ["discovery-card"]) None None)
    [Tag "h4" (mkAttrs (Some ["provider"]) None None)
       [NavigableString "HarvardX"];
     Tag "h3" (mkAttrs (Some ["card-Title"; "bold"]) None None)
       [NavigableString "  CS50 Introduction "];
     NavigableString "A first course in computer science";
     Tag "a" (mkAttrs None (Some "/course/cs50") None)
       [NavigableString "Enroll"]].

Definition sample_page : node :=
  Tag "[document]" no_attrs
    [Tag "html" no_attrs [Tag "body" no_attrs [sample_card]]].

(** A cache that holds one frame built at [last] seconds, and two worlds
    in which every scraper finds the two records of the corpus above; in
    the second one building the new frame fails. *)
Definition cached_state (last : Z) : State :=
  {| objects := [intro_python_corpus];
     cached_courses := Some 0%nat;
     last_cache_time := Qc_of_Z last |}.

Definition calm_env : Env :=
  {| run_scraper := λ _, Some intro_python_corpus; merge_raises := false |}.
Definition failing_env : Env :=
  {| run_scraper := λ _, Some intro_python_corpus; merge_raises := true |}.

(** A list of scraped records with a repeated and an empty title. *)
Definition scraped_sample : list CourseRecord :=
  [mkCourse "a" "" "l1" "X"; mkCourse "" "" "l0" "X";
   mkCourse "b" "" "l2" "X"; mkCourse "a" "" "l3" "Y"].

(** ** Page fetcher: [safe_get_url] and the browser session *)

(** What a scraper does with its browser, in order. *)
Inductive DriverEvent :=
  | EvGet
  | EvSleep
  | EvScrollToBottom (scrolls : nat)
  | EvPageSource
  | EvQuit.

Global Instance DriverEvent_eq_dec : EqDecision DriverEvent.
Proof. solve_decision. Defined.

(** The [for] loop of lines 89-98 from [attempt] on, with [remaining]
    values of [range(max_retries)] left; [get_ok k] tells whether the
    [k]-th [driver.get] returns.  The test [attempt == max_retries - 1]
    is written [S attempt = max_retries]. *)
Fixpoint safe_get_url_loop (get_ok : nat → bool) (max_retries : nat)
    (remaining attempt : nat) : bool * list DriverEvent :=
  match remaining with
  | O => (false, [])
  | S remaining' =>
      if get_ok attempt then (true, [EvGet])
      else if bool_decide (S attempt = max_retries) then (false, [EvGet])
      else
        let '(ok, events) :=
          safe_get_url_loop get_ok max_retries remaining' (S attempt) in
        (ok, EvGet :: EvSleep :: events)
  end.

Definition safe_get_url (get_ok : nat → bool) (max_retries : nat)
    : bool * list DriverEvent :=
  safe_get_url_loop get_ok max_retries max_retries 0.

Definition count_event (e : DriverEvent) (events : list DriverEvent) : nat :=
  length (List.filter (λ e', bool_decide (e' = e)) events).

(** The browser of one run of [scrape_platform]: whether [setup_driver]
    gives a driver, which [driver.get] calls return, the page heights seen
    in each of the scroll rounds, and the parsed [page_source] ([None]
    when reading or parsing it raises). *)
Record Browser := mkBrowser {
  setup_ok : bool;
  get_ok : nat → bool;
  round_heights : nat → Driver;
  page : option node
}.

(** Lines 151-153 from round [round] on. *)
Fixpoint scroll_rounds (fuel : nat) (heights : nat → Driver)
    (rounds round : nat) : option (list DriverEvent) :=
  match rounds with
  | O => Some []
  | S rounds' =>
      match scroll_to_bottom fuel (heights round) with
      | None => None
      | Some scrolls =>
          (λ events, EvScrollToBottom scrolls :: EvSleep :: events)
            <$> scroll_rounds fuel heights rounds' (S round)
      end
  end.

(** [scrape_platform] with its browser, lines 139-245: the records and
    what was done with the driver; [None] when a scroll round does not
    end within [fuel] steps.  [driver.quit()] of the [finally] block runs
    on every path on which a driver exists. *)
Definition scrape_platform_session (fuel : nat) (platform : string)
    (card_selectors : list Selector) (b : Browser)
    : option (list CourseRecord * list DriverEvent) :=
  if setup_ok b then
    let '(loaded, gets) := safe_get_url (get_ok b) 3 in
    if loaded then
      match scroll_rounds fuel (round_heights b) 5 0 with
      | None => None
      | Some scrolled =>
          Some (scrape_platform platform card_selectors (page b),
                gets ++ scrolled ++ [EvPageSource; EvQuit])
      end
    else Some ([], gets ++ [EvQuit])
  else Some ([], []).

(** ** Card extractor: [extract_course_info] *)

(** Lines 100-135: title from a class-matching heading only, link and
    image from inside the card only. *)
Definition extract_course_info (card : node) (platform : string)
    : option CourseRecord :=
  match find is_title_heading card with
  | None => None
  | Some title_tag =>
      let title := strip (get_text title_tag) in
      match find is_link card with
      | None => None
      | Some link =>
          let course_link := resolve_link platform (attr_href link) in
          let img := find is_img card in
          Some {| title := title;
                  image_url := image_of img;
                  course_link := course_link;
                  platform := platform |}
      end
  end.

(** A browser whose first two loads fail, on a page that stops growing
    after two scrolls. *)
Definition slow_browser : Browser :=
  {| setup_ok := true;
     get_ok := λ k, bool_decide (2 ≤ k);
     round_heights := λ _, grows_until 2;
     page := Some sample_page |}.

(** A card with an image beside it, not inside it. *)
Definition card_in_row : node * list node :=
  let card :=
    Tag "div" (mkAttrs (Some ["course-card"]) None None)
      [Tag "h2" (mkAttrs (Some ["course-name"]) None None)
         [NavigableString "Statistics 101"];
       Tag "a" (mkAttrs None (Some "https://x.org/stat") None) []] in
  (card,
   [Tag "li" no_attrs
      [Tag "img" (mkAttrs None None (Some "https://x.org/s.png")) []; card]]).

(** ** Presentation: [get_template_image] and [gradio_search] *)

Definition placeholder_image : string :=
  "https://via.placeholder.com/300x180?text=Course+Image".

(** The dict of lines 433-442 as an association list. *)
Definition template_images : list (string * string) :=
  [("Coursera",
    "https://d3njjcbhbojbot.cloudfront.net/web/images/icons/coursera.svg");
   ("Udemy", "https://www.udemy.com/staticx/udemy/images/v7/logo-udemy.svg");
   ("Analytics Vidhya",
    "https://www.analyticsvidhya.com/wp-content/uploads/2015/12/av-logo.png");
   ("edX", "https://www.edx.org/sites/default/files/theme/edx-logo-header.png");
   ("Khan Academy",
    "https://cdn.kastatic.org/images/khan-logo-dark-background-2.png");
   ("MIT OpenCourseWare", "https://ocw.mit.edu/images/logo.png");
   ("freeCodeCamp",
    "https://www.freecodecamp.org/news/content/images/2020/10/fcc_primary.svg");
   ("Harvard Online Learning",
    "https://online-learning.harvard.edu/sites/default/files/styles/social_share/public/2019-11/HarvardX_Logo_Black.png")].

(** [d.get(key, fallback)] on a dict literal. *)
Definition dict_get (d : list (string * string)) (key fallback : string)
    : string :=
  default fallback ((list_to_map d : gmap string string) !! key).

Definition get_template_image (platform : string) : string :=
  dict_get template_images platform placeholder_image.

(** The dict of lines 488-497. *)
Definition platform_styles : list (string * string) :=
  [("Coursera", "background: linear-gradient(45deg, #0056D2, #0077B5);");
   ("Udemy", "background: linear-gradient(45deg, #A435F0, #8710D8);");
   ("Analytics Vidhya",
    "background: linear-gradient(45deg, #FF6B6B, #FF8E8E);");
   ("edX", "background: linear-gradient(45deg, #2A73FF, #1A63FF);");
   ("Khan Academy", "background: linear-gradient(45deg, #14BF96, #0D9B7A);");
   ("MIT OpenCourseWare",
    "background: linear-gradient(45deg, #8A8A8A, #666666);");
   ("freeCodeCamp", "background: linear-gradient(45deg, #0A0A23, #1B1B32);");
   ("Harvard Online Learning",
    "background: linear-gradient(45deg, #A51C30, #7D1414);")].

(** What is written into the template of one result card. *)
Record Card (Score : Type) := mkCard {
  card_style : string;
  card_image : string;
  card_fallback_image : string;
  card_title : string;
  card_platform : string;
  card_color : string;
  card_score : Score;
  card_link : string
}.
Arguments mkCard {Score}.
Arguments card_style {Score}.
Arguments card_image {Score}.
Arguments card_fallback_image {Score}.
Arguments card_title {Score}.
Arguments card_platform {Score}.
Arguments card_color {Score}.
Arguments card_score {Score}.
Arguments card_link {Score}.

(** The pages [gradio_search] can answer with. *)
Inductive Response (Score : Type) :=
  | ModelNotInitialized
  | EnterSearchTerm
  | NoCoursesAvailable
  | ResultCards (cards : list (Card Score))
  | NoCoursesFound.
Arguments ModelNotInitialized {Score}.
Arguments EnterSearchTerm {Score}.
Arguments NoCoursesAvailable {Score}.
Arguments ResultCards {Score}.
Arguments NoCoursesFound {Score}.

Record SearchRun (Score : Type) := mkSearchRun {
  response : Response Score;
  state_after : State;
  scrapers_run : list scraper;
  encodes_run : list EncodeCall
}.
Arguments mkSearchRun {Score}.
Arguments response {Score}.
Arguments state_after {Score}.
Arguments scrapers_run {Score}.
Arguments encodes_run {Score}.

Section Presentation.
Context {Emb Score : Type}.
Context (score_lt : Score → Score → bool).
Context (pytorch_cos_sim : Emb → Emb → Score).
(** The float literals [0.7] and [0.4]. *)
Context (score_0_7 score_0_4 : Score).

(** Lines 482-499 and the fields of the template of lines 501-537. *)
Definition render_card (item : RankedResult Score) : Card Score :=
  let relevance_color :=
    if score_lt score_0_7 (r_score item) then "#4CAF50"
    else if score_lt score_0_4 (r_score item) then "#FFC107"
    else "#FF5252" in
  let image_url :=
    if bool_decide (r_image_url item ≠ "") then r_image_url item
    else get_template_image (r_platform item) in
  let platform_style :=
    dict_get platform_styles (r_platform item) "background-color: #1e1e1e;" in
  {| card_style := platform_style;
     card_image := image_url;
     card_fallback_image := get_template_image (r_platform item);
     card_title := r_title item;
     card_platform := r_platform item;
     card_color := relevance_color;
     card_score := r_score item;
     card_link := r_course_link item |}.

(** [df] as read from the object that [get_all_courses] returned. *)
Definition frame_at (σ : State) (df : nat) : DataFrame :=
  default [] (objects σ !! df).

(** [gradio_search(query)], lines 445-560, with the globals it reads and
    writes.  No step of the body raises here, so the handler of line 552
    is not reached. *)
Definition gradio_search (model : option (@Model Emb)) (env : Env)
    (current_time : Qc) (σ : State) (query : string) : SearchRun Score :=
  match model with
  | None => mkSearchRun ModelNotInitialized σ [] []
  | Some _ =>
      if bool_decide (query = "") || bool_decide (strip query = "") then
        mkSearchRun EnterSearchTerm σ [] []
      else
        let out := get_all_courses env current_time σ in
        let df := frame_at (final out) (returned out) in
        if bool_decide (df = []) then
          mkSearchRun NoCoursesAvailable (final out) (scraper_calls out) []
        else
          let '(result_list, encodes) :=
            search_courses score_lt pytorch_cos_sim model query df in
          if bool_decide (result_list ≠ []) then
            mkSearchRun (ResultCards (render_card <$> result_list))
                        (final out) (scraper_calls out) encodes
          else
            mkSearchRun NoCoursesFound (final out) (scraper_calls out) encodes
  end.
End Presentation.

(** A cache that holds the forty-row corpus. *)
Definition big_cached_state : State :=
  {| objects := [big_corpus];
     cached_courses := Some 0;
     last_cache_time := Qc_of_Z 3400 |}.

(** The events of [k] failed loads followed by one more load. *)
Fixpoint attempts_trace (k : nat) : list DriverEvent :=
  match k with
  | O => [EvGet]
  | S k' => EvGet :: EvSleep :: attempts_trace k'
  end.

(** After [n] scrolls the loop of [scroll_to_bottom] has a reason to
    end: the script call of that round raised, or the last four heights
    read are the same. *)
Definition stop_at (driver : Driver) (n : nat) : Prop :=
  driver n = None ∨
  (3 ≤ n ∧ ∃ height, ∀ j, j ≤ 3 → driver (n - j) = Some height).

(** The loop state after [scrolls] scrolls: [retry_count] is the number
    of reads before the last one that showed the same height in a row,
    and no earlier point was a reason to end. *)
Definition scroll_inv (driver : Driver) (scrolls : nat) (last_height : Z)
    (retry_count : nat) : Prop :=
  retry_count < 3 ∧ retry_count ≤ scrolls ∧
  (∀ j, j ≤ retry_count → driver (scrolls - j) = Some last_height) ∧
  (retry_count < scrolls →
     driver (scrolls - retry_count - 1) ≠ Some last_height) ∧
  (∀ n, n ≤ scrolls → ¬ stop_at driver n).

(** What the run on [slow_browser] does with its driver. *)
Definition slow_browser_events : list DriverEvent :=
  [EvGet; EvSleep; EvGet; EvSleep; EvGet;
   EvScrollToBottom 5; EvSleep; EvScrollToBottom 5; EvSleep;
   EvScrollToBottom 5; EvSleep; EvScrollToBottom 5; EvSleep;
   EvScrollToBottom 5; EvSleep; EvPageSource; EvQuit].

(** A corpus as the merge makes it: titles are not empty and pairwise
    different. *)
Definition corpus_ok (df : DataFrame) : Prop :=
  NoDup (title <$> df) ∧ Forall (λ r, title r ≠ "") df.

(** The cached object, when there is one, is in the table and is such a
    corpus. *)
Definition cache_ok (σ : State) : Prop :=
  match cached_courses σ with
  | Some c => c < length (objects σ) ∧ corpus_ok (frame_at σ c)
  | None => True
  end.

(** What the scrapers of [scrapers] give in one pass, failures counting
    as nothing. *)
Definition scraped (env : Env) (scrapers : list scraper)
    : list CourseRecord :=
  mjoin ((λ s, default [] (run_scraper env s)) <$> scrapers).

(** A world in which only the edX scraper works. *)
Definition edx_only_env : Env :=
  {| run_scraper := λ s,
       match s with
       | scrape_edx => Some scraped_sample
       | scrape_udemy => Some []
       | _ => None
       end;
     merge_raises := false |}.

(** The first list of [yields] that is not empty, [[]] when there is
    none. *)
Definition first_nonempty (yields : list (list CourseRecord))
    : list CourseRecord :=
  default [] (head (List.filter (λ l, bool_decide (l ≠ [])) yields)).

(** * Properties *)

(** ** Deduplication by title *)

Section Dedup.
Implicit Types (l : list CourseRecord) (seen : gset string).

Lemma dedup_loop_acc l seen acc :
  dedup_loop l seen acc = acc ++ dedup_loop l seen [].
Proof.
  revert seen acc. induction l as [|c l IH]; intros seen acc; simpl.
  - by rewrite app_nil_r.
  - case_bool_decide.
    + rewrite (IH _ (acc ++ [c])), (IH _ [c]). by rewrite <- app_assoc.
    + apply IH.
Qed.

Lemma dedup_loop_cons c l seen :
  dedup_loop (c :: l) seen [] =
    if bool_decide (title c ≠ "" ∧ title c ∉ seen)
    then c :: dedup_loop l ({[title c]} ∪ seen) []
    else dedup_loop l seen [].
Proof. simpl. case_bool_decide; [|done]. by rewrite dedup_loop_acc. Qed.

Lemma first_with_title_skip t c l i r :
  title c ≠ t →
  first_with_title t l = Some (i, r) →
  first_with_title t (c :: l) = Some (S i, r).
Proof.
  unfold first_with_title. intros Hne Hl. simpl.
  rewrite decide_False by done. by rewrite Hl.
Qed.

Lemma not_seen_add t c seen : t ∉ {[c]} ∪ seen ↔ c ≠ t ∧ t ∉ seen.
Proof.
  rewrite not_elem_of_union, not_elem_of_singleton.
  split; intros [??]; split; congruence.
Qed.

Lemma dedup_loop_elem l seen r :
  r ∈ dedup_loop l seen [] →
  title r ≠ "" ∧ (title r ∉ seen) ∧
  ∃ i, first_with_title (title r) l = Some (i, r).
Proof.
  revert seen. induction l as [|c l IH]; intros seen; simpl.
  - by intros ?%elem_of_nil.
  - rewrite dedup_loop_acc. case_bool_decide as Hc.
    + simpl. intros [->|Hr]%elem_of_cons.
      * destruct Hc. split_and!; [done..|]. exists 0.
        unfold first_with_title. simpl. by rewrite decide_True.
      * destruct (IH _ Hr) as (? & [??]%not_seen_add & i & Hi).
        split_and!; [done..|].
        exists (S i). by apply first_with_title_skip.
    + simpl. intros Hr. destruct (IH _ Hr) as (? & Hseen & i & Hi).
      split_and!; [done..|]. exists (S i).
      apply first_with_title_skip; [|done].
      intros Heq. apply Hc. rewrite Heq. done.
Qed.

Lemma dedup_loop_NoDup l seen : NoDup (title <$> dedup_loop l seen []).
Proof.
  revert seen. induction l as [|c l IH]; intros seen.
  - constructor.
  - rewrite dedup_loop_cons. case_bool_decide; [|done].
    rewrite fmap_cons. constructor; [|done].
    intros (r & Heq & Hr)%list_elem_of_fmap.
    apply dedup_loop_elem in Hr as (_ & [Hne _]%not_seen_add & _).
    by apply Hne.
Qed.

Lemma dedup_loop_order l seen a b r1 r2 :
  dedup_loop l seen [] !! a = Some r1 →
  dedup_loop l seen [] !! b = Some r2 →
  a < b →
  ∃ i j, first_with_title (title r1) l = Some (i, r1) ∧
         first_with_title (title r2) l = Some (j, r2) ∧ i < j.
Proof.
  revert seen a b. induction l as [|c l IH]; intros seen a b.
  - simpl. by rewrite lookup_nil.
  - rewrite dedup_loop_cons. case_bool_decide as Hc.
    + destruct b as [|b]; [lia|]. destruct a as [|a]; simpl.
      * intros [= ->] H2 _.
        apply list_elem_of_lookup_2, dedup_loop_elem in H2
          as (_ & [??]%not_seen_add & j & Hj).
        exists 0, (S j). split_and!; [|  |lia].
        -- unfold first_with_title. simpl. by rewrite decide_True.
        -- by apply first_with_title_skip.
      * intros H1 H2 Hab.
        destruct (IH _ _ _ H1 H2) as (i & j & Hi & Hj & Hij); [lia|].
        apply list_elem_of_lookup_2, dedup_loop_elem in H1
          as (_ & [??]%not_seen_add & _).
        apply list_elem_of_lookup_2, dedup_loop_elem in H2
          as (_ & [??]%not_seen_add & _).
        exists (S i), (S j).
        split_and!; [by apply first_with_title_skip..|lia].
    + intros H1 H2 Hab.
      destruct (IH _ _ _ H1 H2 Hab) as (i & j & Hi & Hj & Hij).
      apply list_elem_of_lookup_2, dedup_loop_elem in H1 as (? & Hs1 & _).
      apply list_elem_of_lookup_2, dedup_loop_elem in H2 as (? & Hs2 & _).
      exists (S i), (S j).
      split_and!; [apply first_with_title_skip; [|done]..|lia].
      * intros Heq. apply Hc. by rewrite Heq.
      * intros Heq. apply Hc. by rewrite Heq.
Qed.

Lemma dedup_loop_complete l seen r :
  r ∈ l → title r ≠ "" → title r ∉ seen →
  title r ∈ title <$> dedup_loop l seen [].
Proof.
  revert seen. induction l as [|c l IH]; intros seen.
  - by intros ?%elem_of_nil.
  - rewrite dedup_loop_cons.
    intros Hr Hne Hseen. case_bool_decide as Hc.
    + rewrite fmap_cons.
      destruct (decide (title r = title c)) as [->|Hrc]; [left|].
      right. apply elem_of_cons in Hr as [->|Hr]; [done|].
      apply IH; [done..|]. by apply not_seen_add.
    + apply elem_of_cons in Hr as [->|Hr]; [by destruct Hc|].
      by apply IH.
Qed.

Lemma dedup_loop_sublist l seen : dedup_loop l seen [] `sublist_of` l.
Proof.
  revert seen. induction l as [|c l IH]; intros seen.
  - constructor.
  - rewrite dedup_loop_cons. case_bool_decide.
    + by apply sublist_skip.
    + by apply sublist_cons.
Qed.
End Dedup.

(** C2. The deduplication step of [get_all_courses] returns a list in
    which no title occurs twice; every record it keeps is the first
    record of the input with that title; the kept records are ordered by
    the position of that first occurrence; and every non-empty title of
    the input is kept. *)
Theorem dedup_first_seen_in_order (all_courses : list CourseRecord) :
  let unique_courses := remove_duplicate_titles all_courses in
  NoDup (title <$> unique_courses) ∧
  (∀ r, r ∈ unique_courses →
     ∃ i, first_with_title (title r) all_courses = Some (i, r)) ∧
  (∀ a b r1 r2,
     unique_courses !! a = Some r1 → unique_courses !! b = Some r2 → a < b →
     ∃ i j, first_with_title (title r1) all_courses = Some (i, r1) ∧
            first_with_title (title r2) all_courses = Some (j, r2) ∧ i < j) ∧
  (∀ r, r ∈ all_courses → title r ≠ "" →
     title r ∈ title <$> unique_courses).
Proof.
  unfold remove_duplicate_titles. simpl. split_and!.
  - apply dedup_loop_NoDup.
  - intros r Hr. by apply dedup_loop_elem in Hr as (_ & _ & ?).
  - apply dedup_loop_order.
  - intros r Hr Hne. apply dedup_loop_complete; [done..|].
    apply not_elem_of_empty.
Qed.

Lemma dedup_first_seen_in_order_witness :
  ∃ i j,
    first_with_title "a" scraped_sample = Some (i, mkCourse "a" "" "l1" "X") ∧
    first_with_title "b" scraped_sample = Some (j, mkCourse "b" "" "l2" "X") ∧
    i < j.
Proof.
  destruct (dedup_first_seen_in_order scraped_sample) as (_ & _ & H & _).
  apply (H 0 1 (mkCourse "a" "" "l1" "X") (mkCourse "b" "" "l2" "X"));
    [reflexivity | reflexivity | lia].
Defined.

(** ** The cache of [get_all_courses] *)

Lemma scrape_loop_calls env scrapers all_courses calls :
  snd (scrape_loop env scrapers all_courses calls) = calls ++ scrapers.
Proof.
  revert all_courses calls.
  induction scrapers as [|s scrapers IH]; intros all_courses calls; simpl.
  - by rewrite app_nil_r.
  - destruct (run_scraper env s); rewrite IH; by rewrite <- app_assoc.
Qed.

Lemma rebuild_calls env current_time σ :
  scraper_calls (rebuild env current_time σ) = platform_scrapers.
Proof.
  unfold rebuild.
  pose proof (scrape_loop_calls env platform_scrapers [] []) as Hcalls.
  destruct (scrape_loop env platform_scrapers [] []) as [all_courses calls].
  simpl in Hcalls. subst calls.
  destruct (merge_raises env); [destruct (cached_courses σ)|]; done.
Qed.

(** A rebuild that does not fail stores the deduplicated concatenation of
    what the scrapers gave as a new object and stamps it with the time of
    the call. *)
Lemma rebuild_success env current_time σ :
  merge_raises env = false →
  let out := rebuild env current_time σ in
  returned out = length (objects σ) ∧
  cached_courses (final out) = Some (returned out) ∧
  last_cache_time (final out) = current_time ∧
  objects (final out) !! returned out =
    Some (remove_duplicate_titles
            (fst (scrape_loop env platform_scrapers [] []))).
Proof.
  intros Hok. unfold rebuild. rewrite Hok.
  destruct (scrape_loop env platform_scrapers [] []) as [all_courses calls].
  simpl. split_and!; [done..|].
  rewrite lookup_app_r by done. by rewrite Nat.sub_diag.
Qed.

(** A call made less than the TTL after a build that succeeded returns
    the object of that build, calls no scraper and changes nothing. *)
Lemma call_after_build env env' current_time later σ :
  merge_raises env = false →
  (later - current_time < CACHE_DURATION)%Qc →
  let built := rebuild env current_time σ in
  get_all_courses env' later (final built) =
    {| returned := returned built; final := final built;
       scraper_calls := [] |}.
Proof.
  intros Hok Hage built.
  destruct (rebuild_success env current_time σ Hok) as (_ & Hc & Ht & _).
  fold built in Hc, Ht. unfold get_all_courses. rewrite Hc, Ht.
  by rewrite bool_decide_eq_true_2.
Qed.

(** C3. With a cached corpus younger than the TTL, [get_all_courses]
    returns that very object, calls no scraper and leaves the globals as
    they were; without a cached corpus, or when its age has reached the
    TTL, the rebuild runs and calls all eight scrapers in order. *)
Theorem cache_fresh_or_rebuild (env : Env) (current_time : Qc) (σ : State) :
  (∀ c, cached_courses σ = Some c →
        (current_time - last_cache_time σ < CACHE_DURATION)%Qc →
        get_all_courses env current_time σ =
          {| returned := c; final := σ; scraper_calls := [] |}) ∧
  (cached_courses σ = None ∨
   (CACHE_DURATION ≤ current_time - last_cache_time σ)%Qc →
        get_all_courses env current_time σ = rebuild env current_time σ ∧
        scraper_calls (get_all_courses env current_time σ)
          = platform_scrapers).
Proof.
  unfold get_all_courses. split.
  - intros c -> Hage. by rewrite bool_decide_eq_true_2.
  - intros Hstale. assert (match cached_courses σ with
      | Some c =>
          if bool_decide (current_time - last_cache_time σ < CACHE_DURATION)%Qc
          then {| returned := c; final := σ; scraper_calls := [] |}
          else rebuild env current_time σ
      | None => rebuild env current_time σ
      end = rebuild env current_time σ) as ->.
    { destruct (cached_courses σ) as [c|]; [|done].
      destruct Hstale as [?|Hage]; [done|].
      rewrite bool_decide_eq_false_2; [done|]. by apply Qcle_not_lt. }
    split; [done|]. apply rebuild_calls.
Qed.

Lemma cache_fresh_or_rebuild_witness :
  get_all_courses calm_env (Qc_of_Z 4000) (cached_state 3400) =
    {| returned := 0; final := cached_state 3400; scraper_calls := [] |} ∧
  scraper_calls (get_all_courses calm_env (Qc_of_Z 4000) (cached_state 400))
    = platform_scrapers.
Proof.
  split.
  - apply (cache_fresh_or_rebuild calm_env (Qc_of_Z 4000) (cached_state 3400)).
    + reflexivity.
    + reflexivity.
  - apply (cache_fresh_or_rebuild calm_env (Qc_of_Z 4000) (cached_state 400)).
    right. vm_compute. discriminate.
Defined.

(** C4. When the merge step of a rebuild raises, a prior corpus is
    returned as the same object and the globals and the object table are
    untouched; without a prior corpus the result is a new empty frame and
    the cache stays absent. *)
Theorem rebuild_failure_serves_prior (env : Env) (current_time : Qc)
    (σ : State) :
  merge_raises env = true →
  let out := get_all_courses env current_time σ in
  (∀ c, cached_courses σ = Some c →
        (CACHE_DURATION ≤ current_time - last_cache_time σ)%Qc →
        out = {| returned := c; final := σ;
                 scraper_calls := platform_scrapers |}) ∧
  (cached_courses σ = None →
        objects (final out) !! returned out = Some [] ∧
        objects (final out) = objects σ ++ [[]] ∧
        cached_courses (final out) = None ∧
        last_cache_time (final out) = last_cache_time σ).
Proof.
  intros Hraise out. subst out. unfold get_all_courses. split.
  - intros c Hc Hage. rewrite Hc.
    rewrite bool_decide_eq_false_2 by by apply Qcle_not_lt.
    pose proof (rebuild_calls env current_time σ) as Hcalls.
    unfold rebuild in *. rewrite Hraise, Hc in *.
    destruct (scrape_loop env platform_scrapers [] []) as [all_courses calls].
    simpl in Hcalls. by subst calls.
  - intros Hc. rewrite Hc. unfold rebuild. rewrite Hraise, Hc.
    destruct (scrape_loop env platform_scrapers [] []) as [all_courses calls].
    simpl. split_and!; [|done..].
    rewrite lookup_app_r by done. by rewrite Nat.sub_diag.
Qed.

Lemma rebuild_failure_serves_prior_witness :
  get_all_courses failing_env (Qc_of_Z 4000) (cached_state 400) =
    {| returned := 0; final := cached_state 400;
       scraper_calls := platform_scrapers |} ∧
  objects (final (get_all_courses failing_env 0%Qc initial_state))
    !! returned (get_all_courses failing_env 0%Qc initial_state) = Some [].
Proof.
  split.
  - apply (rebuild_failure_serves_prior failing_env (Qc_of_Z 4000)
             (cached_state 400)).
    + reflexivity.
    + reflexivity.
    + vm_compute. discriminate.
  - apply (rebuild_failure_serves_prior failing_env 0%Qc initial_state).
    + reflexivity.
    + reflexivity.
Defined.

(** ** The matcher *)

Section Sorting.
Context {A : Type} (lt : A → A → bool).

Lemma insert_by_Permutation x l : insert_by lt x l ≡ₚ x :: l.
Proof.
  induction l as [|y l IH]; simpl; [done|].
  destruct (lt y x); [|done].
  rewrite IH. apply Permutation_swap.
Qed.

Lemma sort_stable_Permutation l : sort_stable lt l ≡ₚ l.
Proof.
  induction l as [|x l IH]; simpl; [done|].
  rewrite insert_by_Permutation. by rewrite IH.
Qed.

Lemma sorted_reverse_Permutation l : sorted_reverse lt l ≡ₚ l.
Proof.
  unfold sorted_reverse.
  by rewrite reverse_Permutation, sort_stable_Permutation,
    reverse_Permutation.
Qed.
End Sorting.

Section MatcherProperties.
Context {Emb Score : Type}.
Context (score_lt : Score → Score → bool).
Context (pytorch_cos_sim : Emb → Emb → Score).

Local Abbreviation search := (search_courses score_lt pytorch_cos_sim).

Lemma topk_too_few (k : nat) (similarities : list Score) :
  length similarities < k → topk score_lt k similarities = None.
Proof.
  intros Hlen. unfold topk. rewrite bool_decide_eq_false_2; [done|lia].
Qed.

Lemma topk_length (k : nat) (similarities : list Score) top :
  topk score_lt k similarities = Some top → length top = k.
Proof.
  unfold topk. case_bool_decide as Hk; [|done]. intros [= <-].
  rewrite length_take, length_fmap.
  rewrite (Permutation_length (sorted_reverse_Permutation _ _)).
  rewrite length_imap. lia.
Qed.

(** The loop keeps fewer than eight results while it runs, all with
    different titles that are recorded in [seen_courses]. *)
Lemma collect_results_bounded df similarities indices seen_courses
    (results : list (RankedResult Score)) :
  length results < 8 →
  NoDup (r_title <$> results) →
  (∀ r, r ∈ results → r_title r ∈ seen_courses) →
  let out := collect_results df similarities indices seen_courses results in
  length out ≤ 8 ∧ NoDup (r_title <$> out).
Proof.
  revert seen_courses results.
  induction indices as [|idx rest IH]; intros seen results Hlen Hnd Hseen;
    simpl.
  - split; [lia|done].
  - destruct (df !! idx) as [course|]; [|by apply IH].
    destruct (similarities !! idx) as [s|]; [|by apply IH].
    case_bool_decide as Hnew; [|by apply IH].
    assert (NoDup (r_title <$> results ++
              [mkResult (title course) (image_url course)
                 (course_link course) (platform course) s])) as Hnd'.
    { rewrite fmap_app. apply NoDup_app. split_and!; [done| |].
      - intros t (r & -> & Hr)%list_elem_of_fmap Ht.
        apply list_elem_of_singleton in Ht. simpl in Ht.
        apply Hnew. rewrite <- Ht. by apply Hseen.
      - apply NoDup_singleton. }
    case_bool_decide as Hfull.
    + split; [|done]. rewrite length_app. simpl. lia.
    + apply IH; [lia|done|].
      intros r [Hr| ->%list_elem_of_singleton]%elem_of_app.
      * apply elem_of_union_r. by apply Hseen.
      * apply elem_of_union_l. by apply elem_of_singleton.
Qed.

(** A corpus that is not empty but has fewer than thirty rows: [topk]
    raises and the handler of line 426 answers with the empty list. *)
Lemma search_small_corpus (m : Model) (query : string) (df : DataFrame) :
  length df < 30 → fst (search (Some m) query df) = [].
Proof.
  intros Hlen. unfold search_courses.
  case_bool_decide; [done|].
  destruct (m query) as [query_embedding|]; [|done].
  destruct (mapM m (title <$> df)) as [course_embeddings|] eqn:Hemb; [|done].
  rewrite topk_too_few; [done|].
  apply length_mapM in Hemb. rewrite length_fmap in Hemb.
  rewrite length_fmap, <- Hemb. done.
Qed.

(** C1. Whatever the model, the query and the corpus, [search_courses]
    returns at most eight results and no two of them have the same
    title. *)
Theorem search_capped_and_distinct (model : option Model) (query : string)
    (df : DataFrame) :
  length (fst (search model query df)) ≤ 8 ∧
  NoDup (r_title <$> fst (search model query df)).
Proof.
  assert (length (@nil (RankedResult Score)) ≤ 8 ∧
          NoDup (r_title <$> @nil (RankedResult Score))) as Hnil.
  { split; [simpl; lia|constructor]. }
  unfold search_courses.
  case_bool_decide; [done|].
  destruct model as [m|]; [|done].
  destruct (m query) as [query_embedding|]; [|done].
  destruct (mapM m (title <$> df)) as [course_embeddings|]; [|done].
  destruct (topk _ _ _) as [top_results|]; [|done].
  simpl.
  rewrite (sorted_reverse_Permutation _ _).
  apply collect_results_bounded.
  - simpl. lia.
  - constructor.
  - by intros r ?%elem_of_nil.
Qed.

(** C6. On a corpus with at least one and fewer than thirty rows the
    request for the top thirty raises, whatever the scores, and
    [search_courses] returns the empty list. *)
Theorem search_fewer_than_thirty (m : Model) (query : string)
    (df : DataFrame) :
  df ≠ [] → length df < 30 →
  (∀ similarities : list Score,
     length similarities = length df →
     topk score_lt 30 similarities = None) ∧
  fst (search (Some m) query df) = [].
Proof.
  intros _ Hlen. split.
  - intros similarities Hsims. apply topk_too_few. lia.
  - by apply search_small_corpus.
Qed.

(** C7. On an empty corpus [search_courses] returns the empty list
    without any call of [encode]; so it does when no model is loaded. *)
Theorem search_empty_or_uninitialized (model : option Model)
    (query : string) (df : DataFrame) :
  search model query [] = ([], []) ∧ search None query df = ([], []).
Proof.
  split; [done|]. unfold search_courses. by case_bool_decide.
Qed.
End MatcherProperties.

Lemma search_fewer_than_thirty_witness :
  fst (search_courses Z.ltb toy_cos_sim (Some toy_model) "python"
         intro_python_corpus) = [].
Proof.
  apply (search_fewer_than_thirty Z.ltb toy_cos_sim toy_model "python"
           intro_python_corpus).
  - discriminate.
  - simpl. lia.
Defined.

(** C5, at the scenario of the specification: two records titled
    "Intro to Python" and the query "python".  The corpus has fewer than
    thirty rows, so no result comes back, with any model and any scores. *)
Theorem search_intro_python_scenario {Emb Score : Type}
    (score_lt : Score → Score → bool) (pytorch_cos_sim : Emb → Emb → Score)
    (m : Model) :
  fst (search_courses score_lt pytorch_cos_sim (Some m) "python"
         intro_python_corpus) = [] ∧
  search_courses Z.ltb toy_cos_sim (Some toy_model) "python"
    intro_python_corpus
  = ([], [EncodeQuery "python";
          EncodeTitles ["Intro to Python"; "Intro to Python"]]).
Proof.
  split; [|reflexivity].
  apply search_small_corpus. simpl. lia.
Qed.

(** With forty rows, twenty of them titled alike, the pool of thirty is
    deduplicated and cut at eight. *)
Example search_big_corpus :
  r_title <$> fst (search_courses Z.ltb toy_cos_sim (Some toy_model) "cook"
                     big_corpus)
  = ["Cooking"; "Python 0"; "Python 1"; "Python 2"; "Python 3"; "Python 4";
     "Python 5"; "Python 6"].
Proof. vm_compute. reflexivity. Qed.

(** ** Scrolling *)

Lemma scroll_loop_unfold fuel driver scrolls last_height retry_count :
  retry_count < max_scrolls →
  scroll_loop (S fuel) driver scrolls last_height retry_count =
    match driver (S scrolls) with
    | None => Some (S scrolls)
    | Some new_height =>
        let retry_count' :=
          if bool_decide (new_height = last_height) then S retry_count
          else O in
        if bool_decide (3 ≤ retry_count')%nat then Some (S scrolls)
        else scroll_loop fuel driver (S scrolls) new_height retry_count'
    end.
Proof. intros Hlt. simpl. by rewrite bool_decide_eq_true_2. Qed.

(** Three reads in a row that show the height seen before end the loop:
    with [retry_count] unchanged reads already counted, [3 - retry_count]
    more scrolls are made. *)
Lemma scroll_stops_after_three_unchanged fuel driver scrolls height
    retry_count :
  retry_count < 3 →
  (∀ k, 1 ≤ k ≤ 3 - retry_count → driver (scrolls + k) = Some height) →
  3 - retry_count ≤ fuel →
  scroll_loop fuel driver scrolls height retry_count
    = Some (scrolls + (3 - retry_count)).
Proof.
  revert scrolls retry_count.
  induction fuel as [|fuel IH]; intros scrolls retry_count Hrc Hsame Hfuel;
    [lia|].
  rewrite scroll_loop_unfold by (unfold max_scrolls; lia).
  replace (S scrolls) with (scrolls + 1) by lia.
  rewrite Hsame by lia. simpl.
  rewrite (bool_decide_eq_true_2 (height = height)) by done.
  case_bool_decide as Hthree.
  - f_equal. lia.
  - rewrite IH; [f_equal; lia|lia| |lia].
    intros k Hk. replace (scrolls + 1 + k) with (scrolls + (1 + k)) by lia.
    apply Hsame. lia.
Qed.

(** On a page that gains height with each of its first [n] scrolls the
    loop makes [n + 3] scrolls. *)
Lemma scroll_loop_grows_until n fuel scrolls :
  scrolls ≤ n → n - scrolls + 3 ≤ fuel →
  scroll_loop fuel (grows_until n) scrolls (Z.of_nat scrolls) 0
    = Some (n + 3).
Proof.
  revert scrolls.
  induction fuel as [|fuel IH]; intros scrolls Hle Hfuel; [lia|].
  destruct (decide (scrolls = n)) as [->|Hne].
  - rewrite scroll_stops_after_three_unchanged; [done|lia| |lia].
    intros k _. unfold grows_until. do 2 f_equal. lia.
  - rewrite scroll_loop_unfold by (unfold max_scrolls; lia).
    unfold grows_until at 1.
    replace (S scrolls `min` n) with (S scrolls) by lia. cbv zeta.
    rewrite (bool_decide_eq_false_2 (Z.of_nat (S scrolls) = Z.of_nat scrolls))
      by lia.
    rewrite (bool_decide_eq_false_2 (3 ≤ 0)) by lia.
    apply IH; lia.
Qed.

Lemma scroll_loop_grows_forever fuel scrolls :
  scroll_loop fuel grows_forever scrolls (Z.of_nat scrolls) 0 = None.
Proof.
  revert scrolls. induction fuel as [|fuel IH]; intros scrolls; [done|].
  rewrite scroll_loop_unfold by (unfold max_scrolls; lia).
  unfold grows_forever at 1. cbv zeta.
  rewrite (bool_decide_eq_false_2 (Z.of_nat (S scrolls) = Z.of_nat scrolls))
    by lia.
  rewrite (bool_decide_eq_false_2 (3 ≤ 0)) by lia.
  apply IH.
Qed.

(** C9, at pages that keep growing: the counter compared with the bound
    of ten is reset by every change of height, so a page that grows
    twelve times gets fifteen scrolls, a page that grows [n] times gets
    [n + 3], and on a page that always grows no number of rounds lets the
    loop end. *)
Theorem scroll_exceeds_ten :
  scroll_to_bottom 100 (grows_until 12) = Some 15 ∧
  (∀ n, scroll_to_bottom (n + 3) (grows_until n) = Some (n + 3)) ∧
  (∀ fuel, scroll_to_bottom fuel grows_forever = None).
Proof.
  split_and!.
  - reflexivity.
  - intros n. unfold scroll_to_bottom. simpl.
    apply (scroll_loop_grows_until n (n + 3) 0); lia.
  - intros fuel. unfold scroll_to_bottom. simpl.
    apply (scroll_loop_grows_forever fuel 0).
Qed.

(** ** Card extraction *)

Lemma find_first {A} (f : A → bool) (l : list A) (x : A) :
  List.find f l = Some x →
  ∃ before after,
    l = before ++ x :: after ∧ f x = true ∧
    Forall (λ y, f y = false) before.
Proof.
  induction l as [|y l IH]; simpl; [done|].
  destruct (f y) eqn:Hy.
  - intros [= ->]. exists [], l. by split_and!.
  - intros (before & after & -> & Hx & Hbefore)%IH.
    exists (y :: before), after. split_and!; [done..|].
    by constructor.
Qed.

Lemma find_is_Some {A} (f : A → bool) (l : list A) (x : A) :
  x ∈ l → f x = true → is_Some (List.find f l).
Proof.
  induction l as [|y l IH]; simpl.
  - by intros ?%elem_of_nil.
  - intros [->|Hx]%elem_of_cons Hfx.
    + rewrite Hfx. by eexists.
    + destruct (f y); [by eexists|by apply IH].
Qed.

(** Platforms with an entry in the chain of lines 197-202 get a link that
    starts with [http]; for every other platform the link is the [href]
    as found. *)
Lemma resolve_link_table (platform href : string) :
  platform ∈ ["Coursera"; "Udemy"; "Analytics Vidhya"] →
  startswith (resolve_link platform href) "http" = true.
Proof.
  intros Hp. unfold resolve_link.
  destruct (startswith href "http") eqn:Hhttp; [done|].
  repeat (apply elem_of_cons in Hp as [->|Hp]; [done|]).
  by apply elem_of_nil in Hp.
Qed.

Lemma resolve_link_no_entry (platform href : string) :
  platform ∉ ["Coursera"; "Udemy"; "Analytics Vidhya"] →
  resolve_link platform href = href.
Proof.
  rewrite !not_elem_of_cons. intros (? & ? & ? & _). unfold resolve_link.
  destruct (startswith href "http"); [done|].
  by rewrite !bool_decide_eq_false_2.
Qed.

Lemma card_course_info_fields label card parents r :
  card_course_info label card parents = Some r →
  platform r = label ∧
  extract_title card = Some (title r) ∧
  ∃ link, find_here_or_above is_link card parents = Some link ∧
          course_link r = resolve_link label (attr_href link).
Proof.
  unfold card_course_info.
  destruct (extract_title card) as [t|]; [|done].
  destruct (find_here_or_above is_link card parents) as [link|]; [|done].
  intros [= <-]. simpl. split_and!; [done..|]. by exists link.
Qed.

Lemma cards_courses_elem label cards r :
  r ∈ cards_courses label cards →
  accepted r = true ∧
  ∃ card parents, (card, parents) ∈ cards ∧
                  card_course_info label card parents = Some r.
Proof.
  unfold cards_courses. rewrite list_elem_of_In, filter_In.
  rewrite <- list_elem_of_In, list_elem_of_omap.
  intros [([card parents] & Hin & Hinfo) Hacc]. split; [done|].
  by exists card, parents.
Qed.

Lemma selector_loop_elem label soup card_selectors courses r :
  r ∈ selector_loop label soup card_selectors courses →
  r ∈ courses ∨
  ∃ selector, selector ∈ card_selectors ∧
              r ∈ cards_courses label (find_cards selector soup).
Proof.
  revert courses.
  induction card_selectors as [|selector rest IH]; intros courses; simpl.
  - by left.
  - assert (r ∈ courses ++ cards_courses label (find_cards selector soup)
            → r ∈ courses ∨
              ∃ sel, sel ∈ selector :: rest ∧
                     r ∈ cards_courses label (find_cards sel soup)) as Hnow.
    { intros [?|?]%elem_of_app; [by left|right].
      exists selector. split; [left|done]. }
    case_bool_decide; [done|].
    intros [Hr|(sel & Hsel & Hr)]%IH; [by apply Hnow|right].
    exists sel. split; [by right|done].
Qed.

(** Every record that [scrape_platform] returns has a title and a link
    that are not empty, the label of its label and a link made by
    [resolve_link] from an [href] of the page. *)
Lemma scrape_platform_record label card_selectors page_source r :
  r ∈ scrape_platform label card_selectors page_source →
  title r ≠ "" ∧ course_link r ≠ "" ∧ platform r = label ∧
  ∃ href, course_link r = resolve_link label href.
Proof.
  unfold scrape_platform. destruct page_source as [soup|].
  - intros [Hr|(sel & _ & Hr)]%selector_loop_elem.
    { by apply elem_of_nil in Hr. }
    apply cards_courses_elem in Hr as (Hacc & card & parents & _ & Hinfo).
    apply card_course_info_fields in Hinfo as (Hp & _ & link & _ & Hlink).
    unfold accepted in Hacc. apply andb_true_iff in Hacc as [Ht Hl].
    apply bool_decide_eq_true in Ht, Hl.
    split_and!; [done..|]. by eexists.
  - by intros ?%elem_of_nil.
Qed.

(** On the three platforms with a prefix every scraped link starts with
    [http]. *)
Lemma scrape_platform_absolute platform card_selectors page_source r :
  platform ∈ ["Coursera"; "Udemy"; "Analytics Vidhya"] →
  r ∈ scrape_platform platform card_selectors page_source →
  startswith (course_link r) "http" = true.
Proof.
  intros Hp (_ & _ & _ & href & ->)%scrape_platform_record.
  by apply resolve_link_table.
Qed.

(** C8, at an edX listing whose card links to [/course/cs50]: the chain
    of prefixes has no branch for edX, and the record keeps the relative
    link.  The same holds for the four platforms listed after it. *)
Theorem scrape_edx_relative_link :
  scrape scrape_edx (Some sample_page)
    = [mkCourse "CS50 Introduction" "" "/course/cs50" "edX"] ∧
  startswith "/course/cs50" "http" = false ∧
  (∀ href,
     Forall (λ s, resolve_link (scraper_platform s) href = href)
       [scrape_edx; scrape_khanacademy; scrape_mitocw; scrape_freecodecamp;
        scrape_harvard]).
Proof.
  split_and!; [reflexivity..|].
  intros href. repeat constructor; apply resolve_link_no_entry;
    rewrite !not_elem_of_cons; (split_and!; [done..|apply not_elem_of_nil]).
Qed.

(** C10. In a card that contains a heading whose class is title-like, the
    title is the stripped text of the first such heading in document
    order: methods 2 and 3 are not consulted, and a record made from the
    card carries that title. *)
Theorem title_from_class_matching_heading (card h : node) :
  h ∈ nodes_in card → is_title_heading h = true →
  ∃ title_tag before after,
    nodes_in card = before ++ title_tag :: after ∧
    is_title_heading title_tag = true ∧
    Forall (λ n, is_title_heading n = false) before ∧
    find_title_tag card = Some title_tag ∧
    extract_title card = Some (strip (get_text title_tag)) ∧
    ∀ platform parents r,
      card_course_info platform card parents = Some r →
      title r = strip (get_text title_tag).
Proof.
  intros Hin Hh.
  destruct (find_is_Some is_title_heading _ _ Hin Hh) as [title_tag Hfind].
  destruct (find_first _ _ _ Hfind) as (before & after & Heq & Htag & Hbefore).
  assert (find_title_tag card = Some title_tag) as Htitle.
  { unfold find_title_tag, find. by rewrite Hfind. }
  assert (extract_title card = Some (strip (get_text title_tag))) as Hextract.
  { unfold extract_title. by rewrite Htitle. }
  exists title_tag, before, after. split_and!; [done..|].
  intros platform parents r. unfold card_course_info. rewrite Hextract.
  destruct (find_here_or_above is_link card parents); [|done].
  by intros [= <-].
Qed.

Lemma title_from_class_matching_heading_witness :
  ∃ title_tag before after,
    nodes_in sample_card = before ++ title_tag :: after ∧
    is_title_heading title_tag = true ∧
    Forall (λ n, is_title_heading n = false) before ∧
    find_title_tag sample_card = Some title_tag ∧
    extract_title sample_card = Some (strip (get_text title_tag)) ∧
    ∀ platform parents r,
      card_course_info platform sample_card parents = Some r →
      title r = strip (get_text title_tag).
Proof.
  apply (title_from_class_matching_heading sample_card
           (Tag "h3" (mkAttrs (Some ["card-Title"; "bold"]) None None)
              [NavigableString "  CS50 Introduction "])).
  - apply list_elem_of_further, list_elem_of_further, list_elem_of_here.
  - reflexivity.
Defined.



(** ** Loading a page with retries *)

Lemma safe_get_url_loop_S get_ok max_retries remaining attempt :
  safe_get_url_loop get_ok max_retries (S remaining) attempt =
    if get_ok attempt then (true, [EvGet])
    else if bool_decide (S attempt = max_retries) then (false, [EvGet])
    else
      let '(ok, events) :=
        safe_get_url_loop get_ok max_retries remaining (S attempt) in
      (ok, EvGet :: EvSleep :: events).
Proof. reflexivity. Qed.

Lemma safe_get_url_loop_success get_ok max_retries remaining attempt k :
  attempt + remaining = max_retries →
  attempt ≤ k < max_retries →
  get_ok k = true →
  (∀ j, attempt ≤ j < k → get_ok j = false) →
  safe_get_url_loop get_ok max_retries remaining attempt
    = (true, attempts_trace (k - attempt)).
Proof.
  revert attempt. induction remaining as [|remaining IH];
    intros attempt Hsum Hk Hok Hfail; [lia|].
  rewrite safe_get_url_loop_S.
  destruct (decide (attempt = k)) as [->|Hne].
  - rewrite Hok. by rewrite Nat.sub_diag.
  - rewrite Hfail by lia. rewrite bool_decide_eq_false_2 by lia.
    rewrite (IH (S attempt)) by (try done; intros; try apply Hfail; lia).
    replace (k - attempt) with (S (k - S attempt)) by lia. done.
Qed.

Lemma safe_get_url_loop_failure get_ok max_retries remaining attempt :
  attempt + S remaining = max_retries →
  (∀ j, attempt ≤ j < max_retries → get_ok j = false) →
  safe_get_url_loop get_ok max_retries (S remaining) attempt
    = (false, attempts_trace remaining).
Proof.
  revert attempt. induction remaining as [|remaining IH];
    intros attempt Hsum Hfail; rewrite safe_get_url_loop_S.
  - rewrite Hfail by lia. by rewrite bool_decide_eq_true_2 by lia.
  - rewrite Hfail by lia. rewrite bool_decide_eq_false_2 by lia.
    rewrite (IH (S attempt)) by (try done; intros; try apply Hfail; lia).
    done.
Qed.

(** X1. When load number [k] (counted from 0, below [max_retries]) is the
    first that succeeds, [safe_get_url] returns [True] after exactly
    [k + 1] loads with one pause between two loads, and none after the
    last. *)
Theorem safe_get_url_first_success (get_ok : nat → bool)
    (max_retries k : nat) :
  k < max_retries →
  get_ok k = true →
  (∀ j, j < k → get_ok j = false) →
  safe_get_url get_ok max_retries = (true, attempts_trace k) ∧
  count_event EvGet (attempts_trace k) = k + 1 ∧
  count_event EvSleep (attempts_trace k) = k.
Proof.
  intros Hk Hok Hfail. split.
  - unfold safe_get_url.
    rewrite (safe_get_url_loop_success get_ok max_retries max_retries 0 k);
      [by rewrite Nat.sub_0_r|lia|lia|done|].
    intros j Hj. apply Hfail. lia.
  - clear. induction k as [|k [IH1 IH2]]; [done|].
    unfold count_event in *. simpl. rewrite IH1, IH2. lia.
Qed.

Lemma safe_get_url_first_success_witness :
  safe_get_url (get_ok slow_browser) 3
    = (true, [EvGet; EvSleep; EvGet; EvSleep; EvGet]).
Proof.
  apply (safe_get_url_first_success (get_ok slow_browser) 3 2).
  - lia.
  - reflexivity.
  - intros j Hj. destruct j as [|[|j]]; [reflexivity|reflexivity|lia].
Defined.

(** X2. When none of the first [max_retries] loads succeeds,
    [safe_get_url] returns [False] after exactly [max_retries] loads and
    [max_retries - 1] pauses; with [max_retries = 0] it does nothing. *)
Theorem safe_get_url_all_fail (get_ok : nat → bool) (max_retries : nat) :
  (∀ j, j < max_retries → get_ok j = false) →
  fst (safe_get_url get_ok max_retries) = false ∧
  count_event EvGet (snd (safe_get_url get_ok max_retries)) = max_retries ∧
  count_event EvSleep (snd (safe_get_url get_ok max_retries))
    = max_retries - 1.
Proof.
  intros Hfail. unfold safe_get_url.
  destruct max_retries as [|n]; [done|].
  rewrite safe_get_url_loop_failure; [|lia|intros; apply Hfail; lia].
  simpl. clear. split; [done|].
  induction n as [|n [IH1 IH2]]; [done|].
  unfold count_event in *. simpl. rewrite IH1, IH2. lia.
Qed.

Lemma safe_get_url_all_fail_witness :
  fst (safe_get_url (λ _, false) 3) = false ∧
  count_event EvGet (snd (safe_get_url (λ _, false) 3)) = 3 ∧
  count_event EvSleep (snd (safe_get_url (λ _, false) 3)) = 3 - 1.
Proof.
  apply (safe_get_url_all_fail (λ _, false) 3). intros j Hj. reflexivity.
Defined.

(** ** Where the scrolling ends *)

Lemma scroll_inv_next driver scrolls last_height retry_count new_height :
  scroll_inv driver scrolls last_height retry_count →
  driver (S scrolls) = Some new_height →
  let retry_count' :=
    if bool_decide (new_height = last_height) then S retry_count else O in
  (3 ≤ retry_count' → stop_at driver (S scrolls)) ∧
  (retry_count' < 3 → scroll_inv driver (S scrolls) new_height retry_count').
Proof.
  intros (Hrc & Hle & Hrun & Hedge & Hnone) Hnew. simpl.
  case_bool_decide as Hsame.
  - subst new_height.
    assert (∀ j, j ≤ S retry_count →
              driver (S scrolls - j) = Some last_height) as Hrun'.
    { intros [|j] Hj; [done|]. simpl. apply Hrun. lia. }
    split.
    + intros Hthree. right. split; [lia|]. exists last_height.
      intros j Hj. apply Hrun'. lia.
    + intros Hlt. split_and!; [done|lia|done| |].
      * intros Hedge'.
        replace (S scrolls - S retry_count - 1)
          with (scrolls - retry_count - 1) by lia.
        apply Hedge. lia.
      * intros n Hn [Hstop|(Hn3 & height & Hfour)].
        { destruct (decide (n = S scrolls)) as [->|]; [congruence|].
          apply (Hnone n); [lia|by left]. }
        destruct (decide (n = S scrolls)) as [->|].
        -- assert (Some height = Some last_height) as [= ->].
           { rewrite <- (Hfour 0) by lia. by rewrite Nat.sub_0_r. }
           apply Hedge; [lia|].
           rewrite <- (Hfour (S retry_count + 1)) by lia. f_equal. lia.
        -- apply (Hnone n); [lia|right; eauto].
  - split; [lia|]. intros _. split_and!; [lia|lia| | |].
    + intros j Hj. by replace (S scrolls - j) with (S scrolls) by lia.
    + intros _. replace (S scrolls - 0 - 1) with scrolls by lia.
      rewrite <- (Nat.sub_0_r scrolls), (Hrun 0) by lia. congruence.
    + intros n Hn [Hstop|(Hn3 & height & Hfour)].
      { destruct (decide (n = S scrolls)) as [->|]; [congruence|].
        apply (Hnone n); [lia|by left]. }
      destruct (decide (n = S scrolls)) as [->|].
      * assert (Some height = Some new_height) as [= ->].
        { rewrite <- (Hfour 0) by lia. by rewrite Nat.sub_0_r. }
        apply Hsame. assert (Some new_height = Some last_height) as [= ->];
          [|done].
        rewrite <- (Hfour 1) by lia.
        replace (S scrolls - 1) with (scrolls - 0) by lia. apply Hrun. lia.
      * apply (Hnone n); [lia|right; eauto].
Qed.

Lemma scroll_loop_returns_at_stop fuel driver scrolls last_height
    retry_count n :
  scroll_inv driver scrolls last_height retry_count →
  scroll_loop fuel driver scrolls last_height retry_count = Some n →
  stop_at driver n ∧ ∀ n', n' < n → ¬ stop_at driver n'.
Proof.
  revert scrolls last_height retry_count.
  induction fuel as [|fuel IH]; intros scrolls last_height retry_count Hinv.
  - simpl. destruct Hinv as (Hrc & _).
    rewrite bool_decide_eq_true_2 by (unfold max_scrolls; lia). done.
  - pose proof Hinv as (Hrc & _ & _ & _ & Hnone).
    rewrite scroll_loop_unfold by (unfold max_scrolls; lia).
    destruct (driver (S scrolls)) as [new_height|] eqn:Hnew.
    + destruct (scroll_inv_next _ _ _ _ _ Hinv Hnew) as [Hstop Hnext].
      cbv zeta in *.
      set (retry_count' := if bool_decide (new_height = last_height)
                           then S retry_count else 0) in *.
      destruct (decide (3 ≤ retry_count')) as [Hthree|Hthree].
      * rewrite bool_decide_eq_true_2 by done.
        intros [= <-]. split; [by apply Hstop|].
        intros n' Hn'. apply Hnone. lia.
      * rewrite bool_decide_eq_false_2 by done. apply IH, Hnext. lia.
    + intros [= <-]. split; [by left|]. intros n' Hn'. apply Hnone. lia.
Qed.

Lemma scroll_loop_reaches_stop fuel driver scrolls last_height
    retry_count n :
  scroll_inv driver scrolls last_height retry_count →
  stop_at driver n → n - scrolls ≤ fuel →
  is_Some (scroll_loop fuel driver scrolls last_height retry_count).
Proof.
  revert scrolls last_height retry_count.
  induction fuel as [|fuel IH];
    intros scrolls last_height retry_count Hinv Hstop Hfuel.
  - destruct Hinv as (_ & _ & _ & _ & Hnone).
    destruct (Hnone n); [lia|done].
  - pose proof Hinv as (Hrc & _ & _ & _ & Hnone).
    assert (scrolls < n) as Hlt.
    { destruct (decide (scrolls < n)); [done|].
      destruct (Hnone n); [lia|done]. }
    rewrite scroll_loop_unfold by (unfold max_scrolls; lia).
    destruct (driver (S scrolls)) as [new_height|] eqn:Hnew; [|by eexists].
    destruct (scroll_inv_next _ _ _ _ _ Hinv Hnew) as [_ Hnext].
    cbv zeta in *.
    set (retry_count' := if bool_decide (new_height = last_height)
                         then S retry_count else 0) in *.
    destruct (decide (3 ≤ retry_count')) as [Hthree|Hthree].
    + rewrite bool_decide_eq_true_2 by done. by eexists.
    + rewrite bool_decide_eq_false_2 by done.
      apply IH; [apply Hnext; lia|done|lia].
Qed.

Lemma scroll_inv_start driver height :
  driver 0 = Some height → scroll_inv driver 0 height 0.
Proof.
  intros Hfirst. split_and!; [lia|lia| |lia|].
  - intros j Hj. by replace (0 - j) with 0 by lia.
  - intros n Hn [Hstop|(Hn3 & _)]; [|lia].
    replace n with 0 in Hstop by lia. congruence.
Qed.

(** X3. When [scroll_to_bottom] returns after [n] scrolls, [n] is the
    first number of scrolls after which a script call raised or the last
    four heights read were the same. *)
Theorem scroll_to_bottom_returns_at_first_stop (fuel : nat)
    (driver : Driver) (n : nat) :
  scroll_to_bottom fuel driver = Some n →
  stop_at driver n ∧ ∀ n', n' < n → ¬ stop_at driver n'.
Proof.
  unfold scroll_to_bottom.
  destruct (driver 0) as [height|] eqn:Hfirst.
  - apply scroll_loop_returns_at_stop. by apply scroll_inv_start.
  - intros [= <-]. split; [by left|]. intros n' Hn'. lia.
Qed.

Lemma scroll_to_bottom_returns_at_first_stop_witness :
  stop_at (grows_until 2) 5 ∧ ∀ n', n' < 5 → ¬ stop_at (grows_until 2) n'.
Proof.
  apply (scroll_to_bottom_returns_at_first_stop 50 (grows_until 2) 5).
  reflexivity.
Defined.

Lemma scroll_to_bottom_reaches_stop fuel driver n :
  stop_at driver n → n ≤ fuel → is_Some (scroll_to_bottom fuel driver).
Proof.
  intros Hstop Hfuel. unfold scroll_to_bottom.
  destruct (driver 0) as [height|] eqn:Hfirst; [|by eexists].
  eapply scroll_loop_reaches_stop; [by apply scroll_inv_start|done|lia].
Qed.

(** X4. When some number of scrolls [n] gives a reason to end and [fuel]
    is at least [n], [scroll_to_bottom] returns. *)
Theorem scroll_to_bottom_terminates (fuel : nat) (driver : Driver)
    (n : nat) :
  stop_at driver n → n ≤ fuel →
  is_Some (scroll_to_bottom fuel driver).
Proof. apply scroll_to_bottom_reaches_stop. Qed.

Lemma scroll_to_bottom_terminates_witness :
  is_Some (scroll_to_bottom 5 (grows_until 2)).
Proof.
  apply (scroll_to_bottom_terminates 5 (grows_until 2) 5); [|lia].
  right. split; [lia|]. exists 2%Z. intros j Hj.
  unfold grows_until. do 2 f_equal. lia.
Defined.

(** ** The browser session of a scraper *)







(** X6. When the driver is there but all three loads of the listing fail,
    [scrape_platform] returns no record after three loads and two pauses,
    quits the driver, and neither scrolls nor reads the page. *)
Theorem session_load_failure (fuel : nat) (label : string)
    (card_selectors : list Selector) (b : Browser) :
  setup_ok b = true →
  (∀ j, j < 3 → get_ok b j = false) →
  scrape_platform_session fuel label card_selectors b
    = Some ([], [EvGet; EvSleep; EvGet; EvSleep; EvGet; EvQuit]).
Proof.
  intros Hsetup Hfail. unfold scrape_platform_session, safe_get_url.
  rewrite Hsetup.
  rewrite (safe_get_url_loop_failure (get_ok b) 3 2 0); [done|lia|].
  intros j Hj. apply Hfail. lia.
Qed.

Lemma session_load_failure_witness :
  scrape_platform_session 0 "Udemy" (scraper_selectors scrape_udemy)
    (mkBrowser true (λ _, false) (λ _, grows_forever) (Some sample_page))
  = Some ([], [EvGet; EvSleep; EvGet; EvSleep; EvGet; EvQuit]).
Proof.
  apply (session_load_failure 0 "Udemy" (scraper_selectors scrape_udemy)
    (mkBrowser true (λ _, false) (λ _, grows_forever) (Some sample_page))).
  - reflexivity.
  - intros j Hj. reflexivity.
Defined.

(** X7. Every record that a run of [scrape_platform] returns has a title
    and a link that are not empty and carries the label of the platform;
    on Coursera, Udemy and Analytics Vidhya its link starts with [http]. *)
Theorem session_records_well_formed (fuel : nat) (label : string)
    (card_selectors : list Selector) (b : Browser)
    (records : list CourseRecord) (events : list DriverEvent)
    (r : CourseRecord) :
  scrape_platform_session fuel label card_selectors b
    = Some (records, events) →
  r ∈ records →
  title r ≠ "" ∧ course_link r ≠ "" ∧ platform r = label ∧
  (label ∈ ["Coursera"; "Udemy"; "Analytics Vidhya"] →
   startswith (course_link r) "http" = true).
Proof.
  unfold scrape_platform_session.
  destruct (setup_ok b); [|by intros [= <- <-] ?%elem_of_nil].
  destruct (safe_get_url (get_ok b) 3) as [[] gets];
    [|by intros [= <- <-] ?%elem_of_nil].
  destruct (scroll_rounds fuel (round_heights b) 5 0); [|done].
  intros [= <- <-] Hr.
  destruct (scrape_platform_record _ _ _ _ Hr) as (? & ? & ? & _).
  split_and!; [done..|]. intros Hlabel.
  by eapply scrape_platform_absolute.
Qed.

Lemma session_records_well_formed_witness :
  title (mkCourse "CS50 Introduction" "" "/course/cs50" "edX") ≠ "" ∧
  course_link (mkCourse "CS50 Introduction" "" "/course/cs50" "edX") ≠ "" ∧
  platform (mkCourse "CS50 Introduction" "" "/course/cs50" "edX") = "edX" ∧
  ("edX" ∈ ["Coursera"; "Udemy"; "Analytics Vidhya"] →
   startswith
     (course_link (mkCourse "CS50 Introduction" "" "/course/cs50" "edX"))
     "http" = true).
Proof.
  apply (session_records_well_formed 50 "edX" (scraper_selectors scrape_edx)
    slow_browser
    [mkCourse "CS50 Introduction" "" "/course/cs50" "edX"]
    slow_browser_events).
  - reflexivity.
  - apply list_elem_of_here.
Defined.

(** ** The older extractor *)

Lemma find_in_card_first test card parents found :
  find test card = Some found →
  find_here_or_above test card parents = Some found.
Proof. intros Hfind. unfold find_here_or_above. by rewrite Hfind. Qed.

(** X8. A record that [extract_course_info] makes from a card is the
    record that the loop of [scrape_platform] makes from the same card
    when the card has no parents; with parents, title, link and platform
    are still the same (the image may then come from a parent). *)
Theorem extract_course_info_agrees (card : node) (label : string)
    (r : CourseRecord) :
  extract_course_info card label = Some r →
  card_course_info label card [] = Some r ∧
  ∀ parents, ∃ r',
    card_course_info label card parents = Some r' ∧
    title r' = title r ∧ course_link r' = course_link r ∧
    platform r' = platform r.
Proof.
  unfold extract_course_info.
  destruct (find is_title_heading card) as [title_tag|] eqn:Htitle; [|done].
  destruct (find is_link card) as [link|] eqn:Hlink; [|done].
  intros [= <-].
  assert (extract_title card = Some (strip (get_text title_tag))) as Hextract.
  { unfold extract_title, find_title_tag. by rewrite Htitle. }
  split.
  - unfold card_course_info. rewrite Hextract.
    rewrite (find_in_card_first _ _ _ _ Hlink).
    unfold find_here_or_above. simpl. by destruct (find is_img card).
  - intros parents. unfold card_course_info. rewrite Hextract.
    rewrite (find_in_card_first _ _ _ _ Hlink). by eexists.
Qed.

Lemma extract_course_info_agrees_witness :
  card_course_info "Udemy" (fst card_in_row) []
    = Some (mkCourse "Statistics 101" "" "https://x.org/stat" "Udemy") ∧
  ∀ parents, ∃ r',
    card_course_info "Udemy" (fst card_in_row) parents = Some r' ∧
    title r' = "Statistics 101" ∧ course_link r' = "https://x.org/stat" ∧
    platform r' = "Udemy".
Proof.
  apply (extract_course_info_agrees (fst card_in_row) "Udemy"
           (mkCourse "Statistics 101" "" "https://x.org/stat" "Udemy")).
  reflexivity.
Defined.

(** X9. [extract_course_info] gives a record exactly for the cards that
    contain a heading with a title-like class and a link with an [href];
    a heading without such a class or a link above the card does not
    count. *)
Theorem extract_course_info_succeeds_iff (card : node) (label : string) :
  is_Some (extract_course_info card label) ↔
  (∃ h, h ∈ nodes_in card ∧ is_title_heading h = true) ∧
  (∃ l, l ∈ nodes_in card ∧ is_link l = true).
Proof.
  unfold extract_course_info, find. split.
  - destruct (List.find is_title_heading (nodes_in card)) as [h|] eqn:Hh;
      [|by intros [? [=]]].
    destruct (List.find is_link (nodes_in card)) as [l|] eqn:Hl;
      [|by intros [? [=]]].
    intros _. apply find_some in Hh as [Hh1 Hh2], Hl as [Hl1 Hl2].
    rewrite <- list_elem_of_In in Hh1, Hl1. split; eauto.
  - intros [(h & Hh1 & Hh2) (l & Hl1 & Hl2)].
    destruct (find_is_Some _ _ _ Hh1 Hh2) as [h' ->].
    destruct (find_is_Some _ _ _ Hl1 Hl2) as [l' ->].
    by eexists.
Qed.

(** ** What the result page shows *)

Lemma get_template_image_not_empty (label : string) :
  get_template_image label ≠ "".
Proof.
  unfold get_template_image, dict_get.
  destruct (_ !! label) as [image|] eqn:Hlookup; simpl; [|done].
  apply elem_of_list_to_map_2 in Hlookup.
  unfold template_images in Hlookup.
  repeat (apply elem_of_cons in Hlookup as [[= ? ?]|Hlookup];
          [by subst image|]).
  by apply elem_of_nil in Hlookup.
Qed.

(** X10. Each of the eight platforms that a scraper labels its records
    with has its own entry in the table of template images and in the
    table of card styles, so neither fallback is used for it. *)
Theorem every_scraper_has_image_and_style (s : scraper) :
  get_template_image (scraper_platform s) ≠ placeholder_image ∧
  dict_get platform_styles (scraper_platform s) "background-color: #1e1e1e;"
    ≠ "background-color: #1e1e1e;".
Proof. destruct s; split; vm_compute; discriminate. Qed.

Section PresentationProperties.
Context {Emb Score : Type}.
Context (score_lt : Score → Score → bool).
Context (pytorch_cos_sim : Emb → Emb → Score).
Context (score_0_7 score_0_4 : Score).

Local Abbreviation render := (render_card score_lt score_0_7 score_0_4).
Local Abbreviation page_for :=
  (gradio_search score_lt pytorch_cos_sim score_0_7 score_0_4).

Lemma render_card_has_image (item : RankedResult Score) :
  card_image (render item) ≠ "".
Proof.
  unfold render_card. simpl.
  case_bool_decide; [done|apply get_template_image_not_empty].
Qed.

(** X11. A result card never has an empty image address: it shows the
    scraped image when there is one and the template image of the
    platform otherwise; title, platform, score and link are those of the
    result. *)
Theorem render_card_image (item : RankedResult Score) :
  card_image (render item) ≠ "" ∧
  card_image (render item) =
    (if bool_decide (r_image_url item = "")
     then get_template_image (r_platform item) else r_image_url item) ∧
  card_title (render item) = r_title item ∧
  card_link (render item) = r_course_link item.
Proof.
  split_and!; [apply render_card_has_image| |done..].
  unfold render_card. simpl. by repeat case_bool_decide.
Qed.
End PresentationProperties.

(** ** Order of the results *)

Section SortingOrder.
Context {A : Type} (lt : A → A → bool).
Hypothesis lt_asym : ∀ a b, lt a b = true → lt b a = false.
Hypothesis lt_negtrans :
  ∀ a b c, lt a c = true → lt a b = true ∨ lt b c = true.

Lemma insert_by_sorted x l :
  StronglySorted (λ a b, lt b a = false) l →
  StronglySorted (λ a b, lt b a = false) (insert_by lt x l).
Proof.
  induction 1 as [|y l Hsorted IH Hy]; simpl.
  - repeat constructor.
  - destruct (lt y x) eqn:Hyx.
    + constructor; [done|].
      rewrite (insert_by_Permutation lt x l).
      constructor; [by apply lt_asym|done].
    + constructor; [by constructor|].
      constructor; [done|].
      eapply Forall_impl; [exact Hy|]. intros z Hz. simpl in Hz.
      destruct (lt z x) eqn:Hzx; [|done].
      destruct (lt_negtrans z y x Hzx); congruence.
Qed.

Lemma sort_stable_sorted l :
  StronglySorted (λ a b, lt b a = false) (sort_stable lt l).
Proof.
  induction l as [|x l IH]; simpl; [constructor|].
  by apply insert_by_sorted.
Qed.

Lemma reverse_sorted (R : relation A) l :
  StronglySorted R l → StronglySorted (flip R) (reverse l).
Proof.
  induction 1 as [|x l Hsorted IH Hx]; [constructor|].
  rewrite reverse_cons. apply StronglySorted_app_2; [|done|].
  - intros z x' Hz ->%list_elem_of_singleton. unfold flip.
    rewrite Forall_forall in Hx. apply Hx. by apply elem_of_reverse.
  - repeat constructor.
Qed.

Lemma sorted_reverse_sorted l :
  StronglySorted (λ a b, lt a b = false) (sorted_reverse lt l).
Proof.
  unfold sorted_reverse.
  apply (reverse_sorted (λ a b, lt b a = false)), sort_stable_sorted.
Qed.

Lemma lt_irrefl a : lt a a = false.
Proof.
  destruct (lt a a) eqn:Haa; [|done]. by rewrite (lt_asym a a Haa) in Haa.
Qed.

(** The first element of a list sorted from high to low is not below any
    element of the list it was made from. *)
Lemma sorted_reverse_head l x y :
  head (sorted_reverse lt l) = Some x → y ∈ l → lt x y = false.
Proof.
  intros Hhead Hy.
  pose proof (sorted_reverse_sorted l) as Hsorted.
  rewrite <- (sorted_reverse_Permutation lt l) in Hy.
  destruct (sorted_reverse lt l) as [|x' rest]; [done|].
  injection Hhead as ->.
  apply StronglySorted_cons in Hsorted as [Hall _].
  apply elem_of_cons in Hy as [->|Hy]; [apply lt_irrefl|].
  rewrite Forall_forall in Hall. by apply Hall.
Qed.
End SortingOrder.

(** ** What the matcher returns *)

Section MatcherResults.
Context {Emb Score : Type}.
Context (score_lt : Score → Score → bool).
Context (pytorch_cos_sim : Emb → Emb → Score).

Local Abbreviation search := (search_courses score_lt pytorch_cos_sim).
Local Abbreviation by_score :=
  (λ a b : RankedResult Score, score_lt (r_score a) (r_score b)).
Local Abbreviation result_of :=
  (λ (row : CourseRecord) (s : Score),
     mkResult (title row) (image_url row) (course_link row) (platform row) s).

(** A list of results that is not empty comes out of the last branch of
    [search_courses]. *)
Lemma search_results_inv model query df results calls :
  search model query df = (results, calls) →
  results = [] ∨
  ∃ m query_embedding course_embeddings top_results,
    model = Some m ∧ m query = Some query_embedding ∧
    mapM m (title <$> df) = Some course_embeddings ∧
    topk score_lt 30 (pytorch_cos_sim query_embedding <$> course_embeddings)
      = Some top_results ∧
    results = sorted_reverse by_score
      (collect_results df
         (pytorch_cos_sim query_embedding <$> course_embeddings)
         top_results ∅ []).
Proof.
  unfold search_courses.
  case_bool_decide; [intros [= <- _]; by left|].
  destruct model as [m|]; [|intros [= <- _]; by left].
  destruct (m query) as [query_embedding|] eqn:Hq;
    [|intros [= <- _]; by left].
  destruct (mapM m (title <$> df)) as [course_embeddings|] eqn:Hemb;
    [|intros [= <- _]; by left].
  destruct (topk _ _ _) as [top_results|] eqn:Htop;
    [|intros [= <- _]; by left].
  intros [= <- _]. right.
  by exists m, query_embedding, course_embeddings, top_results.
Qed.

Lemma collect_results_rows df similarities indices seen_courses
    (results : list (RankedResult Score)) r :
  r ∈ collect_results df similarities indices seen_courses results →
  r ∈ results ∨
  ∃ idx row s, idx ∈ indices ∧ df !! idx = Some row ∧
               similarities !! idx = Some s ∧ r = result_of row s.
Proof.
  revert seen_courses results.
  induction indices as [|idx rest IH]; intros seen results; simpl.
  - by left.
  - assert (∀ seen' results',
      (r ∈ results' → r ∈ results ∨
         ∃ idx' row s, idx' ∈ idx :: rest ∧ df !! idx' = Some row ∧
                       similarities !! idx' = Some s ∧ r = result_of row s) →
      r ∈ collect_results df similarities rest seen' results' →
      r ∈ results ∨
      ∃ idx' row s, idx' ∈ idx :: rest ∧ df !! idx' = Some row ∧
                    similarities !! idx' = Some s ∧ r = result_of row s)
      as Hrest.
    { intros seen' results' Hin [Hr|(idx' & row & s & ? & ? & ? & ?)]%IH.
      - by apply Hin.
      - right. exists idx', row, s. split_and!; [by right|done..]. }
    destruct (df !! idx) as [course|] eqn:Hrow; [|by apply Hrest; left].
    destruct (similarities !! idx) as [s|] eqn:Hs; [|by apply Hrest; left].
    case_bool_decide; [|by apply Hrest; left].
    assert (r ∈ results ++ [result_of course s] →
            r ∈ results ∨
            ∃ idx' row s', idx' ∈ idx :: rest ∧ df !! idx' = Some row ∧
                           similarities !! idx' = Some s' ∧
                           r = result_of row s') as Hnew.
    { intros [?| ->%list_elem_of_singleton]%elem_of_app; [by left|].
      right. exists idx, course, s. split_and!; [by left|done..]. }
    case_bool_decide; [done|]. by apply Hrest.
Qed.

Lemma collect_results_keeps df similarities indices seen_courses
    (results : list (RankedResult Score)) r :
  r ∈ results →
  r ∈ collect_results df similarities indices seen_courses results.
Proof.
  revert seen_courses results.
  induction indices as [|idx rest IH]; intros seen results Hr; simpl;
    [done|].
  destruct (df !! idx) as [course|]; [|by apply IH].
  destruct (similarities !! idx) as [s|]; [|by apply IH].
  case_bool_decide; [|by apply IH].
  assert (r ∈ results ++ [result_of course s]) by (apply elem_of_app; by left).
  case_bool_decide; [done|by apply IH].
Qed.

Lemma collect_results_first df similarities idx rest row s :
  df !! idx = Some row → similarities !! idx = Some s →
  result_of row s ∈ collect_results df similarities (idx :: rest) ∅ [].
Proof.
  intros Hrow Hs.
  change (collect_results df similarities (idx :: rest) ∅ []) with
    (match df !! idx, similarities !! idx with
     | Some course, Some s =>
         if bool_decide (title course ∉ (∅ : gset string)) then
           if bool_decide (8 ≤ length ([] ++ [result_of course s]))
           then [] ++ [result_of course s]
           else collect_results df similarities rest
                  ({[title course]} ∪ ∅) ([] ++ [result_of course s])
         else collect_results df similarities rest ∅ []
     | _, _ => collect_results df similarities rest ∅ []
     end).
  rewrite Hrow, Hs.
  rewrite bool_decide_eq_true_2 by apply not_elem_of_empty.
  rewrite bool_decide_eq_false_2 by (simpl; lia).
  apply collect_results_keeps. apply list_elem_of_here.
Qed.

Lemma topk_in_range k (similarities : list Score) top idx :
  topk score_lt k similarities = Some top → idx ∈ top →
  ∃ s, similarities !! idx = Some s ∧
       (idx, s) ∈ imap (λ i s, (i, s)) similarities.
Proof.
  unfold topk. case_bool_decide; [|done]. intros [= <-] Hidx.
  apply subseteq_take in Hidx.
  apply list_elem_of_fmap in Hidx as ([i s] & -> & Hin).
  rewrite sorted_reverse_Permutation in Hin.
  pose proof Hin as Hin'.
  apply elem_of_lookup_imap in Hin as (j & y & [= -> ->] & Hj).
  by exists y.
Qed.

Lemma lookup_embedding (m : @Model Emb) titles course_embeddings idx t :
  mapM m titles = Some course_embeddings → titles !! idx = Some t →
  ∃ e, m t = Some e ∧ course_embeddings !! idx = Some e.
Proof.
  intros Hemb%mapM_Some_1 Ht.
  destruct (Forall2_lookup_l _ _ _ _ _ Hemb Ht) as (e & He & Hm).
  by exists e.
Qed.

(** X12. Every result is a row of the corpus, copied field by field, and
    its score is the similarity of the query embedding and the embedding
    of that row's title. *)
Theorem search_results_from_corpus (model : option Model) (query : string)
    (df : DataFrame) (r : RankedResult Score) :
  r ∈ fst (search model query df) →
  ∃ idx row m query_embedding title_embedding,
    df !! idx = Some row ∧
    r_title r = title row ∧ r_image_url r = image_url row ∧
    r_course_link r = course_link row ∧ r_platform r = platform row ∧
    model = Some m ∧ m query = Some query_embedding ∧
    m (title row) = Some title_embedding ∧
    r_score r = pytorch_cos_sim query_embedding title_embedding.
Proof.
  destruct (search model query df) as [results calls] eqn:Hsearch. simpl.
  destruct (search_results_inv _ _ _ _ _ Hsearch)
    as [->|(m & qe & ces & top & -> & Hq & Hemb & Htop & ->)].
  { by intros ?%elem_of_nil. }
  rewrite (sorted_reverse_Permutation by_score).
  intros [Hr|(idx & row & s & _ & Hrow & Hs & ->)]%collect_results_rows.
  { by apply elem_of_nil in Hr. }
  destruct (lookup_embedding m (title <$> df) ces idx (title row) Hemb)
    as (e & He & Hce).
  { unfold DataFrame in *. by rewrite list_lookup_fmap, Hrow. }
  rewrite list_lookup_fmap, Hce in Hs. injection Hs as <-.
  by exists idx, row, m, qe, e.
Qed.

Lemma search_not_empty (m : Model) (query : string) (df : DataFrame)
    (query_embedding : Emb) :
  30 ≤ length df →
  m query = Some query_embedding →
  (∀ row, row ∈ df → is_Some (m (title row))) →
  fst (search (Some m) query df) ≠ [].
Proof.
  intros Hlen Hq Hall. unfold search_courses.
  rewrite bool_decide_eq_false_2 by (intros ->; simpl in Hlen; lia).
  rewrite Hq.
  destruct (mapM m (title <$> df)) as [ces|] eqn:Hemb.
  2: { assert (is_Some (mapM m (title <$> df))) as [? Hsome];
         [|congruence].
       apply mapM_is_Some_2, Forall_fmap, Forall_forall.
       intros row Hrow. by apply Hall. }
  assert (length ces = length df) as Hces.
  { apply length_mapM in Hemb. by rewrite length_fmap in Hemb. }
  destruct (topk score_lt 30 (pytorch_cos_sim query_embedding <$> ces))
    as [top|] eqn:Htop.
  2: { unfold topk in Htop. rewrite bool_decide_eq_true_2 in Htop; [done|].
       rewrite length_fmap. lia. }
  simpl. pose proof (topk_length _ _ _ _ Htop) as Htoplen.
  destruct top as [|idx rest]; [done|].
  destruct (topk_in_range _ _ _ idx Htop) as (s & Hs & _); [left|].
  destruct (df !! idx) as [row|] eqn:Hrow.
  2: { apply lookup_ge_None in Hrow. apply lookup_lt_Some in Hs.
       rewrite length_fmap in Hs. lia. }
  pose proof (collect_results_first df _ idx rest row s Hrow Hs) as Hfirst.
  intros Hnil.
  rewrite <- (sorted_reverse_Permutation by_score), Hnil in Hfirst.
  by apply elem_of_nil in Hfirst.
Qed.

(** X13. On a corpus of thirty rows or more, when the model embeds the
    query and every title, [search_courses] returns at least one result. *)
Theorem search_thirty_or_more (m : Model) (query : string) (df : DataFrame)
    (query_embedding : Emb) :
  30 ≤ length df →
  m query = Some query_embedding →
  (∀ row, row ∈ df → is_Some (m (title row))) →
  fst (search (Some m) query df) ≠ [].
Proof. apply search_not_empty. Qed.

Hypothesis score_lt_asym : ∀ a b, score_lt a b = true → score_lt b a = false.
Hypothesis score_lt_negtrans :
  ∀ a b c, score_lt a c = true → score_lt a b = true ∨ score_lt b c = true.

(** X14. When [<] on scores is a strict weak order, the results come
    sorted from high to low: no result has a lower score than a result
    after it. *)
Theorem search_results_sorted (model : option Model) (query : string)
    (df : DataFrame) :
  StronglySorted (λ a b, score_lt (r_score a) (r_score b) = false)
    (fst (search model query df)).
Proof.
  destruct (search model query df) as [results calls] eqn:Hsearch. simpl.
  destruct (search_results_inv _ _ _ _ _ Hsearch)
    as [->|(m & qe & ces & top & _ & _ & _ & _ & ->)]; [constructor|].
  apply (sorted_reverse_sorted by_score).
  - intros a b. apply score_lt_asym.
  - intros a b c. apply score_lt_negtrans.
Qed.

(** X15. Under the same order, on a corpus of thirty rows or more that
    the model embeds, the first result is a best match: no row of the
    corpus is more similar to the query than it. *)
Theorem search_best_match_first (m : Model) (query : string)
    (df : DataFrame) (query_embedding : Emb) :
  30 ≤ length df →
  m query = Some query_embedding →
  (∀ row, row ∈ df → is_Some (m (title row))) →
  ∃ best, head (fst (search (Some m) query df)) = Some best ∧
    ∀ row title_embedding,
      row ∈ df → m (title row) = Some title_embedding →
      score_lt (r_score best)
        (pytorch_cos_sim query_embedding title_embedding) = false.
Proof.
  intros Hlen Hq Hall.
  pose proof (search_not_empty m query df query_embedding Hlen Hq Hall)
    as Hne.
  destruct (search (Some m) query df) as [results calls] eqn:Hsearch.
  simpl in *.
  destruct (search_results_inv _ _ _ _ _ Hsearch)
    as [->|(m' & qe & ces & top & [= <-] & Hq' & Hemb & Htop & Hres)];
    [done|].
  rewrite Hq in Hq'. injection Hq' as <-.
  destruct results as [|best others]; [done|].
  exists best. split; [done|]. intros row e Hrow He.
  set (sims := pytorch_cos_sim query_embedding <$> ces) in *.
  pose proof (topk_length _ _ _ _ Htop) as Htoplen.
  destruct top as [|idx rest]; [done|].
  destruct (topk_in_range _ _ _ idx Htop) as (s & Hs & _); [left|].
  destruct (df !! idx) as [row0|] eqn:Hrow0.
  2: { apply lookup_ge_None in Hrow0. apply lookup_lt_Some in Hs.
       unfold sims in Hs. rewrite length_fmap in Hs.
       apply length_mapM in Hemb. rewrite length_fmap in Hemb. lia. }
  (* the first result is not below the row that [topk] puts first *)
  assert (score_lt (r_score best) s = false) as Hbest.
  { apply (sorted_reverse_head by_score
             (λ a b, score_lt_asym _ _) (λ a b c, score_lt_negtrans _ _ _)
             (collect_results df sims (idx :: rest) ∅ []) best
             (result_of row0 s)).
    - by rewrite <- Hres.
    - by apply collect_results_first. }
  (* and that row is not below any other *)
  apply list_elem_of_lookup in Hrow as [j Hj].
  destruct (lookup_embedding m (title <$> df) ces j (title row) Hemb)
    as (e' & He' & Hce).
  { unfold DataFrame in *. by rewrite list_lookup_fmap, Hj. }
  rewrite He in He'. injection He' as <-.
  assert (score_lt s (pytorch_cos_sim query_embedding e) = false) as Htop1.
  { unfold topk in Htop. case_bool_decide; [|done].
    injection Htop as Htop.
    set (pairs := imap (λ i s, (i, s)) sims) in *.
    destruct (sorted_reverse (λ a b, score_lt a.2 b.2) pairs)
      as [|[i0 s0] sorted] eqn:Hsorted; [done|].
    simpl in Htop. injection Htop as -> _.
    assert ((idx, s0) ∈ pairs) as Hin.
    { rewrite <- (sorted_reverse_Permutation (λ a b, score_lt a.2 b.2)
                   pairs), Hsorted. left. }
    apply elem_of_lookup_imap in Hin as (i & y & [= -> ->] & Hi).
    rewrite Hs in Hi. injection Hi as <-.
    apply (sorted_reverse_head (λ a b : nat * Score, score_lt a.2 b.2)
             (λ a b, score_lt_asym _ _) (λ a b c, score_lt_negtrans _ _ _)
             pairs (i, s) (j, pytorch_cos_sim query_embedding e)).
    - by rewrite Hsorted.
    - apply (elem_of_lookup_imap_2 (λ i s, (i, s))). unfold sims.
      by rewrite list_lookup_fmap, Hce. }
  destruct (score_lt (r_score best) (pytorch_cos_sim query_embedding e))
    eqn:Hlt; [|done].
  destruct (score_lt_negtrans _ s _ Hlt); congruence.
Qed.
End MatcherResults.

Lemma search_results_from_corpus_witness :
  ∃ idx row m query_embedding title_embedding,
    big_corpus !! idx = Some row ∧
    "Cooking" = title row ∧ "" = image_url row ∧
    "http://c/1" = course_link row ∧ "Z" = platform row ∧
    Some toy_model = Some m ∧ m "cook" = Some query_embedding ∧
    m (title row) = Some title_embedding ∧
    1%Z = toy_cos_sim query_embedding title_embedding.
Proof.
  apply (search_results_from_corpus Z.ltb toy_cos_sim (Some toy_model)
           "cook" big_corpus (mkResult "Cooking" "" "http://c/1" "Z" 1%Z)).
  vm_compute. apply list_elem_of_here.
Defined.

Lemma search_thirty_or_more_witness :
  fst (search_courses Z.ltb toy_cos_sim (Some toy_model) "cook" big_corpus)
    ≠ [].
Proof.
  apply (search_thirty_or_more Z.ltb toy_cos_sim toy_model "cook" big_corpus
           "cook").
  - vm_compute. lia.
  - reflexivity.
  - intros row _. by eexists.
Defined.

Lemma search_results_sorted_witness :
  StronglySorted (λ a b, Z.ltb (r_score a) (r_score b) = false)
    (fst (search_courses Z.ltb toy_cos_sim (Some toy_model) "cook"
            big_corpus)).
Proof.
  apply (search_results_sorted Z.ltb toy_cos_sim).
  - intros a b. rewrite Z.ltb_lt, Z.ltb_ge. lia.
  - intros a b c. rewrite !Z.ltb_lt. lia.
Defined.

Lemma search_best_match_first_witness :
  ∃ best,
    head (fst (search_courses Z.ltb toy_cos_sim (Some toy_model) "cook"
                 big_corpus)) = Some best ∧
    ∀ row title_embedding,
      row ∈ big_corpus → toy_model (title row) = Some title_embedding →
      Z.ltb (r_score best) (toy_cos_sim "cook" title_embedding) = false.
Proof.
  apply (search_best_match_first Z.ltb toy_cos_sim).
  - intros a b. rewrite Z.ltb_lt, Z.ltb_ge. lia.
  - intros a b c. rewrite !Z.ltb_lt. lia.
  - vm_compute. lia.
  - reflexivity.
  - intros row _. by eexists.
Defined.

(** ** More on the merge *)

Lemma dedup_loop_fixed (l : list CourseRecord) (seen : gset string) :
  NoDup (title <$> l) → Forall (λ r, title r ≠ "") l →
  (∀ r, r ∈ l → title r ∉ seen) →
  dedup_loop l seen [] = l.
Proof.
  revert seen. induction l as [|c l IH]; intros seen Hnd Hne Hseen; [done|].
  rewrite dedup_loop_cons.
  rewrite fmap_cons in Hnd. apply NoDup_cons in Hnd as [Hc Hnd].
  apply Forall_cons in Hne as [Hcne Hne].
  rewrite bool_decide_eq_true_2.
  - f_equal. apply IH; [done..|]. intros r Hr.
    apply not_seen_add. split.
    + intros Heq. apply Hc. rewrite Heq. by apply list_elem_of_fmap_2.
    + apply Hseen. by right.
  - split; [done|]. apply Hseen. by left.
Qed.

Lemma remove_duplicate_titles_ok (l : list CourseRecord) :
  corpus_ok (remove_duplicate_titles l).
Proof.
  split; [apply dedup_loop_NoDup|].
  apply Forall_forall. intros r Hr.
  by apply dedup_loop_elem in Hr as (? & _).
Qed.

(** X16. The merge leaves a list alone exactly when its titles are not
    empty and pairwise different; so merging twice is merging once. *)
Theorem dedup_fixed_points (all_courses : list CourseRecord) :
  (remove_duplicate_titles all_courses = all_courses ↔ corpus_ok all_courses)
  ∧ remove_duplicate_titles (remove_duplicate_titles all_courses)
    = remove_duplicate_titles all_courses.
Proof.
  assert (∀ l, corpus_ok l → remove_duplicate_titles l = l) as Hfix.
  { intros l [Hnd Hne]. apply dedup_loop_fixed; [done..|].
    intros r _. apply not_elem_of_empty. }
  split; [split|].
  - intros <-. apply remove_duplicate_titles_ok.
  - apply Hfix.
  - apply Hfix, remove_duplicate_titles_ok.
Qed.

(** X17. The merge only drops records: what it returns is the input with
    some records left out, in the same order. *)
Theorem dedup_is_sublist (all_courses : list CourseRecord) :
  remove_duplicate_titles all_courses `sublist_of` all_courses ∧
  length (remove_duplicate_titles all_courses) ≤ length all_courses.
Proof.
  assert (remove_duplicate_titles all_courses `sublist_of` all_courses)
    by apply dedup_loop_sublist.
  split; [done|]. by apply sublist_length.
Qed.

(** ** More on the cache *)

Lemma scrape_loop_courses env scrapers all_courses calls :
  fst (scrape_loop env scrapers all_courses calls)
    = all_courses ++ scraped env scrapers.
Proof.
  revert all_courses calls. unfold scraped.
  induction scrapers as [|s scrapers IH]; intros all_courses calls; simpl.
  - by rewrite app_nil_r.
  - destruct (run_scraper env s) as [courses|]; rewrite IH; simpl; [|done].
    case_bool_decide as Hne; [by rewrite <- app_assoc|].
    by subst courses.
Qed.

Lemma get_all_courses_stale env current_time σ :
  cached_courses σ = None ∨
  (CACHE_DURATION ≤ current_time - last_cache_time σ)%Qc →
  get_all_courses env current_time σ = rebuild env current_time σ.
Proof.
  intros Hstale. unfold get_all_courses.
  destruct (cached_courses σ) as [c|]; [|done].
  destruct Hstale as [?|Hage]; [done|].
  rewrite bool_decide_eq_false_2; [done|]. by apply Qcle_not_lt.
Qed.

(** X18. A rebuild that does not fail appends one new frame to the object
    table: the merge of what the eight scrapers returned, in the order of
    the scraper list, where a scraper that raised or found nothing adds
    nothing.  The cache then names that frame, stamped with the time of
    the call. *)
Theorem rebuild_stores_merged_corpus (env : Env) (current_time : Qc)
    (σ : State) :
  cached_courses σ = None ∨
  (CACHE_DURATION ≤ current_time - last_cache_time σ)%Qc →
  merge_raises env = false →
  let out := get_all_courses env current_time σ in
  returned out = length (objects σ) ∧
  objects (final out) =
    objects σ ++ [remove_duplicate_titles (scraped env platform_scrapers)] ∧
  cached_courses (final out) = Some (returned out) ∧
  last_cache_time (final out) = current_time.
Proof.
  intros Hstale Hok. simpl. rewrite get_all_courses_stale by done.
  unfold rebuild. rewrite Hok.
  pose proof (scrape_loop_courses env platform_scrapers [] []) as Hcourses.
  destruct (scrape_loop env platform_scrapers [] []) as [all_courses calls].
  simpl in *. by subst all_courses.
Qed.

Lemma rebuild_stores_merged_corpus_witness :
  returned (get_all_courses edx_only_env 0%Qc initial_state) = 0 ∧
  objects (final (get_all_courses edx_only_env 0%Qc initial_state)) =
    [] ++ [remove_duplicate_titles (scraped edx_only_env platform_scrapers)] ∧
  cached_courses (final (get_all_courses edx_only_env 0%Qc initial_state))
    = Some (returned (get_all_courses edx_only_env 0%Qc initial_state)) ∧
  last_cache_time (final (get_all_courses edx_only_env 0%Qc initial_state))
    = 0%Qc.
Proof.
  apply (rebuild_stores_merged_corpus edx_only_env 0%Qc initial_state).
  - left. reflexivity.
  - reflexivity.
Defined.

(** X19. After a rebuild that did not fail, a call made less than the TTL
    later returns the same object, calls no scraper and leaves the state
    as it is, whatever the scrapers would do. *)
Theorem second_call_served_from_cache (env env' : Env)
    (current_time later : Qc) (σ : State) :
  cached_courses σ = None ∨
  (CACHE_DURATION ≤ current_time - last_cache_time σ)%Qc →
  merge_raises env = false →
  (later - current_time < CACHE_DURATION)%Qc →
  let first := get_all_courses env current_time σ in
  get_all_courses env' later (final first) =
    {| returned := returned first; final := final first;
       scraper_calls := [] |}.
Proof.
  intros Hstale Hok Hage first. subst first.
  rewrite (get_all_courses_stale env current_time σ) by done.
  by apply call_after_build.
Qed.

Lemma second_call_served_from_cache_witness :
  get_all_courses failing_env (Qc_of_Z 3599)
    (final (get_all_courses calm_env 0%Qc initial_state)) =
  {| returned := returned (get_all_courses calm_env 0%Qc initial_state);
     final := final (get_all_courses calm_env 0%Qc initial_state);
     scraper_calls := [] |}.
Proof.
  apply (second_call_served_from_cache calm_env failing_env 0%Qc
           (Qc_of_Z 3599) initial_state).
  - left. reflexivity.
  - reflexivity.
  - reflexivity.
Defined.

Lemma frame_at_old σ rows df :
  df < length (objects σ) →
  frame_at {| objects := objects σ ++ [rows];
              cached_courses := cached_courses σ;
              last_cache_time := last_cache_time σ |} df
    = frame_at σ df.
Proof. intros Hlt. unfold frame_at. simpl. by rewrite lookup_app_l. Qed.

(** X20. Starting from a state whose cached frame, if any, is in the
    object table and has non-empty, pairwise different titles, every call
    of [get_all_courses] ends in such a state, returns a frame of the
    table with such titles, and only appends to the table: frames built
    earlier are never changed. *)
Theorem get_all_courses_keeps_cache_ok (env : Env) (current_time : Qc)
    (σ : State) :
  cache_ok σ →
  let out := get_all_courses env current_time σ in
  cache_ok (final out) ∧
  returned out < length (objects (final out)) ∧
  corpus_ok (frame_at (final out) (returned out)) ∧
  objects σ `prefix_of` objects (final out).
Proof.
  intros Hok. simpl. unfold get_all_courses, rebuild.
  assert (∀ rows objs, frame_at
            {| objects := objs ++ [rows]; cached_courses := Some (length objs);
               last_cache_time := current_time |} (length objs) = rows)
    as Hnew.
  { intros rows objs. unfold frame_at. simpl.
    rewrite lookup_app_r by done. by rewrite Nat.sub_diag. }
  assert (cached_courses σ = None ∨ ∃ c, cached_courses σ = Some c ∧
            c < length (objects σ) ∧ corpus_ok (frame_at σ c)) as Hcached.
  { unfold cache_ok in Hok. destruct (cached_courses σ) as [c|]; [|by left].
    right. by exists c. }
  destruct (scrape_loop env platform_scrapers [] []) as [all_courses calls].
  assert (corpus_ok []) as Hnil by (split; constructor).
  destruct Hcached as [Hc|(c & Hc & Hlt & Hcorpus)]; rewrite Hc.
  - destruct (merge_raises env); simpl.
    + split_and!.
      * unfold cache_ok. by simpl.
      * rewrite length_app. simpl. lia.
      * unfold frame_at. simpl. rewrite lookup_app_r by done.
        by rewrite Nat.sub_diag.
      * by apply prefix_app_r.
    + split_and!.
      * unfold cache_ok. simpl. split; [rewrite length_app; simpl; lia|].
        rewrite Hnew. apply remove_duplicate_titles_ok.
      * rewrite length_app. simpl. lia.
      * rewrite Hnew. apply remove_duplicate_titles_ok.
      * by apply prefix_app_r.
  - case_bool_decide; [|destruct (merge_raises env)]; simpl.
    + split_and!; [|done|done|reflexivity].
      unfold cache_ok. by rewrite Hc.
    + split_and!; [|done|done|reflexivity].
      unfold cache_ok. by rewrite Hc.
    + split_and!.
      * unfold cache_ok. simpl. split; [rewrite length_app; simpl; lia|].
        rewrite Hnew. apply remove_duplicate_titles_ok.
      * rewrite length_app. simpl. lia.
      * rewrite Hnew. apply remove_duplicate_titles_ok.
      * by apply prefix_app_r.
Qed.

Lemma get_all_courses_keeps_cache_ok_witness :
  cache_ok (final (get_all_courses edx_only_env 0%Qc initial_state)) ∧
  returned (get_all_courses edx_only_env 0%Qc initial_state)
    < length (objects (final (get_all_courses edx_only_env 0%Qc
                                initial_state))) ∧
  corpus_ok (frame_at (final (get_all_courses edx_only_env 0%Qc
                                initial_state))
               (returned (get_all_courses edx_only_env 0%Qc initial_state)))
  ∧ objects initial_state
      `prefix_of` objects (final (get_all_courses edx_only_env 0%Qc
                                    initial_state)).
Proof.
  apply (get_all_courses_keeps_cache_ok edx_only_env 0%Qc initial_state).
  exact I.
Defined.

(** ** The entry point *)

Section EntryPoint.
Context {Emb Score : Type}.
Context (score_lt : Score → Score → bool).
Context (pytorch_cos_sim : Emb → Emb → Score).
Context (score_0_7 score_0_4 : Score).

Local Abbreviation render := (render_card score_lt score_0_7 score_0_4).
Local Abbreviation page_for :=
  (gradio_search score_lt pytorch_cos_sim score_0_7 score_0_4).

Lemma search_results_shape (model : option (@Model Emb)) query df :
  length (fst (search_courses score_lt pytorch_cos_sim model query df)) ≤ 8 ∧
  NoDup (r_title <$>
           fst (search_courses score_lt pytorch_cos_sim model query df)).
Proof.
  destruct (search_courses _ _ model query df) as [results calls] eqn:Hs.
  simpl.
  destruct (search_results_inv _ _ _ _ _ _ _ Hs)
    as [->|(m & qe & ces & top & _ & _ & _ & _ & ->)].
  { split; [simpl; lia|constructor]. }
  rewrite (sorted_reverse_Permutation _ _).
  apply collect_results_bounded; [simpl; lia|constructor|].
  by intros r ?%elem_of_nil.
Qed.


(** X22. A page of result cards has between one and eight cards, no two
    with the same title, and every card has an image address. *)
Theorem gradio_search_cards (model : option (@Model Emb)) (env : Env)
    (current_time : Qc) (σ : State) (query : string)
    (cards : list (Card Score)) :
  response (page_for model env current_time σ query) = ResultCards cards →
  1 ≤ length cards ≤ 8 ∧ NoDup (card_title <$> cards) ∧
  Forall (λ c, card_image c ≠ "") cards.
Proof.
  unfold gradio_search. destruct model as [m|]; [|done].
  destruct (_ || _); [done|].
  set (out := get_all_courses env current_time σ).
  set (df := frame_at (final out) (returned out)).
  case_bool_decide; [done|].
  pose proof (search_results_shape (Some m) query df) as [Hlen Hnd].
  destruct (search_courses score_lt pytorch_cos_sim (Some m) query df)
    as [result_list encodes].
  simpl in Hlen, Hnd.
  case_bool_decide as Hne; [|done]. simpl. intros [= <-].
  rewrite length_fmap. split_and!.
  - destruct result_list; [done|simpl; lia].
  - done.
  - rewrite <- list_fmap_compose. done.
  - apply Forall_fmap, Forall_forall. intros item _.
    apply render_card_has_image.
Qed.

(** X23. While the cached corpus is younger than the TTL, a search calls
    no scraper and does not touch the cache, whatever it answers. *)
Theorem gradio_search_fresh_cache (model : option (@Model Emb)) (env : Env)
    (current_time : Qc) (σ : State) (query : string) (c : nat) :
  cached_courses σ = Some c →
  (current_time - last_cache_time σ < CACHE_DURATION)%Qc →
  state_after (page_for model env current_time σ query) = σ ∧
  scrapers_run (page_for model env current_time σ query) = [].
Proof.
  intros Hc Hage. unfold gradio_search. destruct model as [m|]; [|done].
  destruct (_ || _); [done|].
  assert (get_all_courses env current_time σ =
            {| returned := c; final := σ; scraper_calls := [] |}) as ->.
  { unfold get_all_courses. rewrite Hc. by rewrite bool_decide_eq_true_2. }
  simpl. case_bool_decide; [done|].
  destruct (search_courses _ _ _ _ _) as [result_list encodes].
  by case_bool_decide.
Qed.

End EntryPoint.


Lemma gradio_search_cards_witness :
  1 ≤ length (render_card Z.ltb 0%Z 0%Z <$>
        fst (search_courses Z.ltb toy_cos_sim (Some toy_model) "cook"
               big_corpus)) ≤ 8 ∧
  NoDup (card_title <$> (render_card Z.ltb 0%Z 0%Z <$>
        fst (search_courses Z.ltb toy_cos_sim (Some toy_model) "cook"
               big_corpus))) ∧
  Forall (λ c, card_image c ≠ "") (render_card Z.ltb 0%Z 0%Z <$>
        fst (search_courses Z.ltb toy_cos_sim (Some toy_model) "cook"
               big_corpus)).
Proof.
  apply (gradio_search_cards Z.ltb toy_cos_sim 0%Z 0%Z (Some toy_model)
           calm_env (Qc_of_Z 4000) big_cached_state "cook").
  vm_compute. reflexivity.
Defined.

Lemma gradio_search_fresh_cache_witness :
  state_after (gradio_search Z.ltb toy_cos_sim 0%Z 0%Z (Some toy_model)
                 failing_env (Qc_of_Z 4000) big_cached_state "cook")
    = big_cached_state ∧
  scrapers_run (gradio_search Z.ltb toy_cos_sim 0%Z 0%Z (Some toy_model)
                  failing_env (Qc_of_Z 4000) big_cached_state "cook") = [].
Proof.
  apply (gradio_search_fresh_cache Z.ltb toy_cos_sim 0%Z 0%Z (Some toy_model)
           failing_env (Qc_of_Z 4000) big_cached_state "cook" 0).
  - reflexivity.
  - reflexivity.
Defined.


(** ** More on the scraper *)

Lemma scroll_rounds_reach_stop fuel heights rounds round :
  (∀ k, round ≤ k < round + rounds →
        ∃ n, n ≤ fuel ∧ stop_at (heights k) n) →
  is_Some (scroll_rounds fuel heights rounds round).
Proof.
  revert round. induction rounds as [|rounds IH]; intros round Hstop; simpl.
  - by eexists.
  - destruct (Hstop round) as (n & Hn & Hstop_n); [lia|].
    destruct (scroll_to_bottom_reaches_stop fuel (heights round) n Hstop_n Hn)
      as [scrolls ->].
    destruct (IH (S round)) as [events ->]; [|by eexists].
    intros k Hk. apply Hstop. lia.
Qed.

(** X25. [scrape_platform] returns whenever each of its five scroll
    rounds comes, within [fuel] scrolls, to a point where a script call
    raises or four heights in a row are the same; a page that may fail to
    load or to parse does not keep it from returning. *)
Theorem session_terminates (fuel : nat) (label : string)
    (card_selectors : list Selector) (b : Browser) :
  (∀ k, k < 5 → ∃ n, n ≤ fuel ∧ stop_at (round_heights b k) n) →
  is_Some (scrape_platform_session fuel label card_selectors b).
Proof.
  intros Hstop. unfold scrape_platform_session.
  destruct (setup_ok b); [|by eexists].
  destruct (safe_get_url (get_ok b) 3) as [[] gets]; [|by eexists].
  destruct (scroll_rounds_reach_stop fuel (round_heights b) 5 0)
    as [scrolled ->]; [|by eexists].
  intros k Hk. apply Hstop. lia.
Qed.

Lemma session_terminates_witness :
  is_Some (scrape_platform_session 5 "edX" (scraper_selectors scrape_edx)
             slow_browser).
Proof.
  apply (session_terminates 5 "edX" (scraper_selectors scrape_edx)
           slow_browser).
  intros k Hk. exists 5. split; [lia|].
  right. split; [lia|]. exists 2%Z. intros j Hj.
  simpl. unfold grows_until. do 2 f_equal. lia.
Defined.

Lemma selector_loop_first label soup card_selectors :
  selector_loop label soup card_selectors [] =
    first_nonempty
      ((λ selector, cards_courses label (find_cards selector soup))
         <$> card_selectors).
Proof.
  unfold first_nonempty.
  induction card_selectors as [|selector rest IH]; [done|].
  simpl. case_bool_decide as Hne; [done|].
  rewrite Hne. apply IH.
Qed.

(** X26. The records of a page are those of the first selector, in the
    order given, whose cards yield any record; selectors after it are not
    used, and nothing is carried over from the ones before it. *)
Theorem scrape_platform_first_selector (label : string)
    (card_selectors : list Selector) (soup : node) :
  scrape_platform label card_selectors (Some soup) =
    first_nonempty
      ((λ selector, cards_courses label (find_cards selector soup))
         <$> card_selectors).
Proof. apply selector_loop_first. Qed.




(** X28. Resolving a link twice is resolving it once, on every platform;
    and an [href] that starts with [http] is never changed. *)
Theorem resolve_link_idempotent (label href : string) :
  resolve_link label (resolve_link label href) = resolve_link label href ∧
  (startswith href "http" = true → resolve_link label href = href).
Proof.
  assert (∀ h, startswith h "http" = true → resolve_link label h = h)
    as Hkeep.
  { intros h Hh. unfold resolve_link. by rewrite Hh. }
  split; [|apply Hkeep].
  destruct (decide (label ∈ ["Coursera"; "Udemy"; "Analytics Vidhya"]))
    as [Hin|Hout].
  - by apply Hkeep, resolve_link_table.
  - by rewrite !resolve_link_no_entry.
Qed.
